(** * Task store and rule engine of [app/main.py]

    A shallow embedding of the FastAPI task service: the pydantic models,
    the in-memory [tasks_db] dictionary, the two helper functions
    [calculate_overdue_status] and [apply_business_rules], and the six
    request handlers.  Handlers run in a small state-and-exception monad
    whose state is the process: the dictionary, the wall clock read by
    [datetime.now()] and the source of [uuid.uuid4()] values. *)

From Stdlib Require Import List String Ascii Bool Arith ZArith QArith Lia.
From Stdlib Require Import Permutation Sorted Decimal DecimalString.
Import ListNotations.

Local Open Scope string_scope.
Local Open Scope Z_scope.

(** ** Data model *)

Inductive TaskStatus := PENDING | IN_PROGRESS | COMPLETED | CANCELLED.

Inductive TaskPriority := LOW | MEDIUM | HIGH | URGENT.

Definition TaskStatus_eqb (a b : TaskStatus) : bool :=
  match a, b with
  | PENDING, PENDING | IN_PROGRESS, IN_PROGRESS
  | COMPLETED, COMPLETED | CANCELLED, CANCELLED => true
  | _, _ => false
  end.

Definition TaskPriority_eqb (a b : TaskPriority) : bool :=
  match a, b with
  | LOW, LOW | MEDIUM, MEDIUM | HIGH, HIGH | URGENT, URGENT => true
  | _, _ => false
  end.

(** A naive [datetime] is its number of microseconds on the time line; a
    [timedelta] is a number of microseconds. *)
Definition datetime := Z.

Definition timedelta (days : Z) : Z := days * 86400000000.

(** Hours are finite, non-NaN floats; only copies, comparisons against the
    field bounds and the truth test are ever applied to them. *)
Definition float := Q.

(** Python truthiness of the optional values the code tests with [not] /
    [and]: [None] is falsy, a float is falsy exactly when it is zero, a
    [datetime] is always truthy. *)
Definition truthy_float (v : option float) : bool :=
  match v with
  | None => false
  | Some x => negb (Qeq_bool x 0)
  end.

Definition truthy_datetime (v : option datetime) : bool :=
  match v with
  | None => false
  | Some _ => true
  end.

(** [a == b] and [a != b] between a dictionary value that may be [None] and
    an enum member. *)
Definition status_is (v : option TaskStatus) (s : TaskStatus) : bool :=
  match v with
  | None => false
  | Some x => TaskStatus_eqb x s
  end.

Definition priority_is (v : option TaskPriority) (p : TaskPriority) : bool :=
  match v with
  | None => false
  | Some x => TaskPriority_eqb x p
  end.

(** [TaskCreate]: the validated body of a create request. *)
Record TaskCreate := mkTaskCreate {
  tc_title : string;
  tc_description : option string;
  tc_priority : TaskPriority;
  tc_estimated_hours : option float;
  tc_due_date : option datetime
}.

(** A field of [TaskUpdate]: either never set ([Unset], absent from
    [__fields_set__]) or set to a value, which may be an explicit [None]. *)
Inductive PatchField (A : Type) :=
| Unset
| Supplied (v : option A).
Arguments Unset {A}.
Arguments Supplied {A} v.

(** Reading the attribute: an unset field reads as its default [None]. *)
Definition attr {A} (f : PatchField A) : option A :=
  match f with
  | Unset => None
  | Supplied v => v
  end.

Record TaskUpdate := mkTaskUpdate {
  tu_title : PatchField string;
  tu_description : PatchField string;
  tu_priority : PatchField TaskPriority;
  tu_status : PatchField TaskStatus;
  tu_estimated_hours : PatchField float;
  tu_due_date : PatchField datetime;
  tu_actual_hours : PatchField float
}.

(** A [task_data] dictionary, the value type of [tasks_db].  [create_task]
    builds it with all eleven keys and nothing ever removes one, so it is a
    record; [update_task] can write [None] under any of the keys of
    [TaskUpdate], hence the optional [title], [priority] and [status]. *)
Record TaskData := mkTaskData {
  title : option string;
  description : option string;
  priority : option TaskPriority;
  estimated_hours : option float;
  due_date : option datetime;
  id : string;
  status : option TaskStatus;
  created_at : datetime;
  updated_at : datetime;
  actual_hours : option float;
  is_overdue : bool
}.

Definition set_estimated_hours v (d : TaskData) : TaskData :=
  mkTaskData (title d) (description d) (priority d) v (due_date d)
    (id d) (status d) (created_at d) (updated_at d) (actual_hours d) (is_overdue d).
Definition set_due_date v (d : TaskData) : TaskData :=
  mkTaskData (title d) (description d) (priority d) (estimated_hours d) v
    (id d) (status d) (created_at d) (updated_at d) (actual_hours d) (is_overdue d).
Definition set_updated_at v (d : TaskData) : TaskData :=
  mkTaskData (title d) (description d) (priority d) (estimated_hours d) (due_date d)
    (id d) (status d) (created_at d) v (actual_hours d) (is_overdue d).
Definition set_actual_hours v (d : TaskData) : TaskData :=
  mkTaskData (title d) (description d) (priority d) (estimated_hours d) (due_date d)
    (id d) (status d) (created_at d) (updated_at d) v (is_overdue d).
Definition set_is_overdue v (d : TaskData) : TaskData :=
  mkTaskData (title d) (description d) (priority d) (estimated_hours d) (due_date d)
    (id d) (status d) (created_at d) (updated_at d) (actual_hours d) v.

(** [task_data.get(key, default)]: the default is returned only when the
    key is missing from the dictionary.  A key that is present with the
    value [None] yields [None].  The flag says whether the key is there. *)
Definition dict_get_default {A} (present : bool) (v : option A) (default : A)
  : option A :=
  if present then v else Some default.

(** Every [task_data] carries the key ['estimated_hours']. *)
Definition has_estimated_hours (d : TaskData) : bool := true.

(** [Task]: the response model.  [title], [priority] and [status] are not
    optional there. *)
Record Task := mkTask {
  t_title : string;
  t_description : option string;
  t_priority : TaskPriority;
  t_estimated_hours : option float;
  t_due_date : option datetime;
  t_id : string;
  t_status : TaskStatus;
  t_created_at : datetime;
  t_updated_at : datetime;
  t_actual_hours : option float;
  t_is_overdue : bool
}.

(** ** Exceptions and the handler monad *)

Inductive Exn :=
| HTTPException (status_code : Z) (detail : string)
| RequestValidationError   (* a request body rejected by its model: 422 *)
| ModelValidationError.    (* a model built inside a handler rejected its data *)

Inductive Result (A : Type) :=
| Ok (a : A)
| Raise (e : Exn).
Arguments Ok {A} a.
Arguments Raise {A} e.

(** The process: [tasks_db] keeps insertion order like a Python dict;
    [clock n] is what the [n]-th coming call of [datetime.now()] returns and
    [uuids n] what the [n]-th coming call of [str(uuid.uuid4())] returns. *)
Record World := mkWorld {
  tasks_db : list (string * TaskData);
  clock : nat -> datetime;
  uuids : nat -> string
}.

(** A computation returns or raises, and leaves a world behind either way. *)
Definition M (A : Type) : Type := World -> Result A * World.

Definition ret {A} (a : A) : M A := fun w => (Ok a, w).

Definition raise {A} (e : Exn) : M A := fun w => (Raise e, w).

Definition bind {A B} (c : M A) (k : A -> M B) : M B :=
  fun w =>
    match c w with
    | (Ok a, w') => k a w'
    | (Raise e, w') => (Raise e, w')
    end.

Declare Scope handler_scope.
Delimit Scope handler_scope with handler.
Notation "x <- c ;; k" := (bind c (fun x => k))
  (at level 100, c at next level, right associativity) : handler_scope.
Notation "c ;;; k" := (bind c (fun _ => k))
  (at level 100, right associativity) : handler_scope.
Local Open Scope handler_scope.

(** [datetime.now()] *)
Definition now : M datetime :=
  fun w => (Ok (clock w 0%nat),
            mkWorld (tasks_db w) (fun n => clock w (S n)) (uuids w)).

(** [str(uuid.uuid4())] *)
Definition uuid4 : M string :=
  fun w => (Ok (uuids w 0%nat),
            mkWorld (tasks_db w) (clock w) (fun n => uuids w (S n))).

Definition get_db : M (list (string * TaskData)) :=
  fun w => (Ok (tasks_db w), w).

Definition put_db (db : list (string * TaskData)) : M unit :=
  fun w => (Ok tt, mkWorld db (clock w) (uuids w)).

(** ** Dictionary operations on [tasks_db] *)

Fixpoint dict_get (k : string) (db : list (string * TaskData)) : option TaskData :=
  match db with
  | [] => None
  | (k', v) :: rest => if String.eqb k k' then Some v else dict_get k rest
  end.

Definition dict_contains (k : string) (db : list (string * TaskData)) : bool :=
  match dict_get k db with
  | Some _ => true
  | None => false
  end.

(** [db[k] = v]: an existing key keeps its place, a new key goes last. *)
Fixpoint dict_set (k : string) (v : TaskData) (db : list (string * TaskData))
  : list (string * TaskData) :=
  match db with
  | [] => [(k, v)]
  | (k', v') :: rest =>
      if String.eqb k k' then (k', v) :: rest else (k', v') :: dict_set k v rest
  end.

(** [del db[k]] *)
Fixpoint dict_del (k : string) (db : list (string * TaskData))
  : list (string * TaskData) :=
  match db with
  | [] => []
  | (k', v') :: rest =>
      if String.eqb k k' then rest else (k', v') :: dict_del k rest
  end.

Definition dict_values (db : list (string * TaskData)) : list TaskData :=
  map snd db.

Definition len {A} (l : list A) : Z := Z.of_nat (List.length l).

(** [l[:stop]] *)
Definition slice_to {A} (l : list A) (stop : Z) : list A :=
  if stop <? 0
  then firstn (Z.to_nat (Z.max 0 (len l + stop))) l
  else firstn (Z.to_nat stop) l.

(** [l.sort(key=key, reverse=True)]: a stable sort into descending key
    order; elements with equal keys keep their original relative order. *)
Fixpoint insert_reverse {A K} (lt : K -> K -> bool) (key : A -> K)
  (x : A) (l : list A) : list A :=
  match l with
  | [] => [x]
  | y :: l' =>
      if lt (key x) (key y) then y :: insert_reverse lt key x l' else x :: y :: l'
  end.

Definition sort_reverse {A K} (lt : K -> K -> bool) (key : A -> K)
  (l : list A) : list A :=
  fold_right (insert_reverse lt key) [] l.

(** [a < b] on [(bool, datetime)] tuples: [False < True], then the dates. *)
Definition tuple_lt (a b : bool * datetime) : bool :=
  if Bool.eqb (fst a) (fst b) then snd a <? snd b else negb (fst a) && fst b.

(** [str(n)] for a count *)
Definition str_of_count (n : nat) : string :=
  NilEmpty.string_of_uint (Nat.to_uint n).

(** ** Field constraints of the models *)

(** [Field(..., min_length=1, max_length=100)].  The bounds are on the
    number of characters; [String.length] is that number for an ASCII
    string and is not smaller for any other, so that a string accepted
    here is accepted by the field. *)
Definition title_ok (s : string) : bool :=
  ((1 <=? String.length s) && (String.length s <=? 100))%nat.

(** [Field(None, max_length=500)], with the same reading of the length. *)
Definition description_ok (v : option string) : bool :=
  match v with
  | None => true
  | Some s => (String.length s <=? 500)%nat
  end.

(** [Field(None, ge=0.1, le=100)] *)
Definition estimated_hours_ok (v : option float) : bool :=
  match v with
  | None => true
  | Some x => Qle_bool (1 # 10) x && Qle_bool x 100
  end.

(** [Field(None, ge=0, le=200)] *)
Definition actual_hours_ok (v : option float) : bool :=
  match v with
  | None => true
  | Some x => Qle_bool 0 x && Qle_bool x 200
  end.

(** The two validators, [TaskCreate.due_date_must_be_future] and
    [TaskUpdate.due_date_validation], have the same body: the clock is read
    only for a supplied date, and the result says whether [ValueError] was
    raised. *)
Definition due_date_must_be_future (v : option datetime) : M bool :=
  match v with
  | Some d => n <- now ;; ret (negb (d <=? n))
  | None => ret true
  end.

Definition due_date_validation (v : option datetime) : M bool :=
  match v with
  | Some d => n <- now ;; ret (negb (d <=? n))
  | None => ret true
  end.

(** Building [TaskCreate] from a request body: every field is checked, all
    failures are gathered in one error. *)
Definition TaskCreate_validate (body : TaskCreate) : M TaskCreate :=
  future <- due_date_must_be_future (tc_due_date body) ;;
  if title_ok (tc_title body)
     && description_ok (tc_description body)
     && estimated_hours_ok (tc_estimated_hours body)
     && future
  then ret body
  else raise RequestValidationError.

Definition patch_title_ok (f : PatchField string) : bool :=
  match attr f with
  | None => true
  | Some s => title_ok s
  end.

Definition TaskUpdate_validate (body : TaskUpdate) : M TaskUpdate :=
  future <- due_date_validation (attr (tu_due_date body)) ;;
  if patch_title_ok (tu_title body)
     && description_ok (attr (tu_description body))
     && estimated_hours_ok (attr (tu_estimated_hours body))
     && actual_hours_ok (attr (tu_actual_hours body))
     && future
  then ret body
  else raise RequestValidationError.

(** Building the response model [Task] from the keys of [task_data]. *)
Definition Task_init (d : TaskData) : Result Task :=
  match title d, priority d, status d with
  | Some t, Some p, Some s =>
      if title_ok t && description_ok (description d)
         && estimated_hours_ok (estimated_hours d)
      then Ok (mkTask t (description d) p (estimated_hours d) (due_date d)
                 (id d) s (created_at d) (updated_at d) (actual_hours d)
                 (is_overdue d))
      else Raise ModelValidationError
  | _, _, _ => Raise ModelValidationError
  end.

Definition lift {A} (r : Result A) : M A := fun w => (r, w).

(** ** The rule engine *)

Definition calculate_overdue_status (task_data : TaskData) : M bool :=
  match due_date task_data with
  | Some due =>
      if negb (status_is (status task_data) COMPLETED)
      then n <- now ;; ret (due <? n)
      else ret false
  | None => ret false
  end.

Definition apply_business_rules (task_data : TaskData) : M TaskData :=
  let task_data :=
    if status_is (status task_data) COMPLETED
       && negb (truthy_float (actual_hours task_data))
    then set_actual_hours
           (dict_get_default (has_estimated_hours task_data)
              (estimated_hours task_data) 1%Q)
           task_data
    else task_data in
  task_data <-
    (if priority_is (priority task_data) URGENT
        && negb (truthy_datetime (due_date task_data))
     then n <- now ;; ret (set_due_date (Some (n + timedelta 1)) task_data)
     else ret task_data) ;;
  overdue <- calculate_overdue_status task_data ;;
  let task_data := set_is_overdue overdue task_data in
  n <- now ;;
  ret (set_updated_at n task_data).

(** ** Handlers *)

Definition create_task (task : TaskCreate) : M Task :=
  task_id <- uuid4 ;;
  c <- now ;;
  u <- now ;;
  let task_data :=
    mkTaskData (Some (tc_title task)) (tc_description task)
      (Some (tc_priority task)) (tc_estimated_hours task) (tc_due_date task)
      task_id (Some PENDING) c u None false in
  task_data <- apply_business_rules task_data ;;
  db <- get_db ;;
  put_db (dict_set task_id task_data db) ;;;
  lift (Task_init task_data).

(** One pass of the [for] loop of [read_all_tasks].  [seen] are the entries
    already visited (their [is_overdue] rewritten in place), [todo] the
    ones still to visit. *)
Fixpoint read_all_loop (status_ : option TaskStatus) (priority_ : option TaskPriority)
  (overdue_only : bool) (seen todo : list (string * TaskData))
  (filtered_tasks : list Task) : M (list Task) :=
  match todo with
  | [] => ret filtered_tasks
  | (k, task_data) :: rest =>
      overdue <- calculate_overdue_status task_data ;;
      let task_data := set_is_overdue overdue task_data in
      put_db ((seen ++ (k, task_data) :: rest)%list) ;;;
      let seen := (seen ++ [(k, task_data)])%list in
      if match status_ with
         | Some s => negb (status_is (status task_data) s)
         | None => false
         end
      then read_all_loop status_ priority_ overdue_only seen rest filtered_tasks
      else if match priority_ with
              | Some p => negb (priority_is (priority task_data) p)
              | None => false
              end
      then read_all_loop status_ priority_ overdue_only seen rest filtered_tasks
      else if overdue_only && negb (is_overdue task_data)
      then read_all_loop status_ priority_ overdue_only seen rest filtered_tasks
      else
        t <- lift (Task_init task_data) ;;
        read_all_loop status_ priority_ overdue_only seen rest ((filtered_tasks ++ [t])%list)
  end.

Definition sort_key (x : Task) : bool * datetime :=
  (TaskPriority_eqb (t_priority x) URGENT, t_created_at x).

Definition read_all_tasks (status_ : option TaskStatus)
  (priority_ : option TaskPriority) (overdue_only : bool) (limit : Z)
  : M (list Task) :=
  db <- get_db ;;
  filtered_tasks <- read_all_loop status_ priority_ overdue_only [] db [] ;;
  let filtered_tasks := sort_reverse tuple_lt sort_key filtered_tasks in
  ret (slice_to filtered_tasks limit).

Definition read_task (task_id : string) : M Task :=
  db <- get_db ;;
  match dict_get task_id db with
  | None => raise (HTTPException 404 "Task not found")
  | Some stored =>
      let task_data := stored in
      overdue <- calculate_overdue_status task_data ;;
      let task_data := set_is_overdue overdue task_data in
      lift (Task_init task_data)
  end.

(** [task_data.update(task_update.dict(exclude_unset=True))] *)
Definition merge_field {A} (f : PatchField A) (old : option A) : option A :=
  match f with
  | Unset => old
  | Supplied v => v
  end.

Definition dict_update (task_data : TaskData) (task_update : TaskUpdate) : TaskData :=
  mkTaskData
    (merge_field (tu_title task_update) (title task_data))
    (merge_field (tu_description task_update) (description task_data))
    (merge_field (tu_priority task_update) (priority task_data))
    (merge_field (tu_estimated_hours task_update) (estimated_hours task_data))
    (merge_field (tu_due_date task_update) (due_date task_data))
    (id task_data)
    (merge_field (tu_status task_update) (status task_data))
    (created_at task_data)
    (updated_at task_data)
    (merge_field (tu_actual_hours task_update) (actual_hours task_data))
    (is_overdue task_data).

(** [task_update.actual_hours = v]: the assignment also marks the field as
    set. *)
Definition assign_actual_hours (v : option float) (u : TaskUpdate) : TaskUpdate :=
  mkTaskUpdate (tu_title u) (tu_description u) (tu_priority u) (tu_status u)
    (tu_estimated_hours u) (tu_due_date u) (Supplied v).

Definition update_task (task_id : string) (task_update : TaskUpdate) : M Task :=
  db <- get_db ;;
  match dict_get task_id db with
  | None => raise (HTTPException 404 "Task not found")
  | Some stored =>
      let task_data := stored in
      if status_is (status task_data) COMPLETED
         && negb (status_is (attr (tu_status task_update)) COMPLETED)
      then raise (HTTPException 400 "Cannot change status of completed task")
      else
        let task_update :=
          if status_is (attr (tu_status task_update)) COMPLETED
             && negb (status_is (status task_data) COMPLETED)
          then
            if negb (truthy_float (attr (tu_actual_hours task_update)))
               && negb (truthy_float (actual_hours task_data))
            then assign_actual_hours
                   (dict_get_default (has_estimated_hours task_data)
                      (estimated_hours task_data) 1%Q)
                   task_update
            else task_update
          else task_update in
        let task_data := dict_update task_data task_update in
        task_data <- apply_business_rules task_data ;;
        db <- get_db ;;
        put_db (dict_set task_id task_data db) ;;;
        lift (Task_init task_data)
  end.

Definition delete_task (task_id : string) : M string :=
  db <- get_db ;;
  match dict_get task_id db with
  | None => raise (HTTPException 404 "Task not found")
  | Some task =>
      if status_is (status task) IN_PROGRESS
      then raise (HTTPException 400 "Cannot delete task in progress")
      else
        put_db (dict_del task_id db) ;;;
        ret "Task deleted successfully"
  end.

Definition delete_all_tasks (force : bool) : M string :=
  db <- get_db ;;
  let in_progress_count :=
    List.length
      (filter (fun task => status_is (status task) IN_PROGRESS) (dict_values db)) in
  if negb force && (0 <? in_progress_count)%nat
  then raise (HTTPException 400
                ("Cannot delete " ++ str_of_count in_progress_count
                 ++ " in-progress tasks. Use force=true to override"))
  else
    let deleted_count := List.length db in
    put_db [] ;;;
    ret ("Deleted " ++ str_of_count deleted_count ++ " tasks successfully").

(** ** Requests: the body or query is validated, then the handler runs *)

Definition post_tasks (body : TaskCreate) : M Task :=
  task <- TaskCreate_validate body ;;
  create_task task.

Definition put_task (task_id : string) (body : TaskUpdate) : M Task :=
  task_update <- TaskUpdate_validate body ;;
  update_task task_id task_update.

(** [limit: int = Query(100, ge=1, le=1000)] *)
Definition get_tasks (status_ : option TaskStatus) (priority_ : option TaskPriority)
  (overdue_only : bool) (limit : option Z) : M (list Task) :=
  let limit := match limit with Some l => l | None => 100 end in
  if (1 <=? limit) && (limit <=? 1000)
  then read_all_tasks status_ priority_ overdue_only limit
  else raise RequestValidationError.

(** ** Vocabulary of the specification *)

(** The error names of the specification, as the handlers raise them. *)
Definition NotFoundError : Exn := HTTPException 404 "Task not found".

Definition InvalidTransitionError : Exn :=
  HTTPException 400 "Cannot change status of completed task".

Definition ConflictError (detail : string) : Exn := HTTPException 400 detail.

(** The overdue condition of a record observed at time [t]: the due date is
    set, the status is not completed, and [t] is strictly later. *)
Definition overdue_at (d : TaskData) (t : datetime) : Prop :=
  exists due, due_date d = Some due /\ status d <> Some COMPLETED /\ due < t.

Definition overdue_atb (d : TaskData) (t : datetime) : bool :=
  match due_date d with
  | Some due => negb (status_is (status d) COMPLETED) && (due <? t)
  | None => false
  end.

(** How many clock readings recomputing the flag of a record takes. *)
Definition reads (d : TaskData) : nat :=
  match due_date d with
  | Some _ => if status_is (status d) COMPLETED then 0 else 1
  | None => 0
  end.

Fixpoint total_reads (db : list (string * TaskData)) : nat :=
  match db with
  | [] => 0
  | (_, d) :: rest => reads d + total_reads rest
  end.

(** The store with every flag recomputed, record after record, the first
    one at reading [n] of the clock [c]. *)
Fixpoint refresh (db : list (string * TaskData)) (c : nat -> datetime) (n : nat)
  : list (string * TaskData) :=
  match db with
  | [] => []
  | (k, d) :: rest =>
      (k, set_is_overdue (overdue_atb d (c n)) d) :: refresh rest c (n + reads d)
  end.

(** A record passes the supplied filters of a list request. *)
Definition passes (status_ : option TaskStatus) (priority_ : option TaskPriority)
  (overdue_only : bool) (d : TaskData) : bool :=
  match status_ with Some s => status_is (status d) s | None => true end
  && match priority_ with Some p => priority_is (priority d) p | None => true end
  && (if overdue_only then is_overdue d else true).

(** A record conforms to the response model. *)
Definition conforms (d : TaskData) : Prop := exists t, Task_init d = Ok t.



(** The world a computation leaves after [n] readings of the clock. *)
Definition advance (n : nat) (w : World) : World :=
  mkWorld (tasks_db w) (fun k => clock w (n + k)%nat) (uuids w).

Definition in_progress_count (db : list (string * TaskData)) : nat :=
  List.length
    (filter (fun task => status_is (status task) IN_PROGRESS) (dict_values db)).


(** The limit a list request runs with. *)
Definition effective_limit (limit : option Z) : Z :=
  match limit with Some l => l | None => 100 end.

(** A response with its flag replaced. *)
Definition with_is_overdue (b : bool) (t : Task) : Task :=
  mkTask (t_title t) (t_description t) (t_priority t) (t_estimated_hours t)
    (t_due_date t) (t_id t) (t_status t) (t_created_at t) (t_updated_at t)
    (t_actual_hours t) b.

(** Rule b applies: the priority is urgent and there is no due date. *)
Definition lacks_urgent_due_date (d : TaskData) : bool :=
  priority_is (priority d) URGENT && negb (truthy_datetime (due_date d)).

(** The record after the first two derivation rules, when the clock shows
    [c 0] at rule b. *)
Definition derived_fields (d : TaskData) (c : nat -> datetime) : TaskData :=
  let d1 :=
    if status_is (status d) COMPLETED && negb (truthy_float (actual_hours d))
    then set_actual_hours (estimated_hours d) d
    else d in
  if lacks_urgent_due_date d1
  then set_due_date (Some (c 0%nat + timedelta 1)) d1
  else d1.

(** The reading of the clock at which the flag is recomputed by the rules. *)
Definition flag_reading (d : TaskData) : nat :=
  if lacks_urgent_due_date d then 1 else 0.

(** The record the derivation rules produce from [d] under the clock [c]. *)
Definition rules_result (d : TaskData) (c : nat -> datetime) : TaskData :=
  let d2 := derived_fields d c in
  set_updated_at (c (flag_reading d + reads d2)%nat)
    (set_is_overdue (overdue_atb d2 (c (flag_reading d))) d2).

(** The patch after the completion default of [update_task]. *)
Definition defaulted_patch (stored : TaskData) (p : TaskUpdate) : TaskUpdate :=
  if status_is (attr (tu_status p)) COMPLETED
     && negb (status_is (status stored) COMPLETED)
     && negb (truthy_float (attr (tu_actual_hours p)))
     && negb (truthy_float (actual_hours stored))
  then assign_actual_hours (estimated_hours stored) p
  else p.

(** The dictionary [create_task] builds before it applies the rules. *)
Definition new_task_data (task : TaskCreate) (task_id : string)
  (created updated : datetime) : TaskData :=
  mkTaskData (Some (tc_title task)) (tc_description task)
    (Some (tc_priority task)) (tc_estimated_hours task) (tc_due_date task)
    task_id (Some PENDING) created updated None false.

(** The transition guard of [update_task]. *)
Definition transition_refused (stored : TaskData) (p : TaskUpdate) : bool :=
  status_is (status stored) COMPLETED
  && negb (status_is (attr (tu_status p)) COMPLETED).

(** The record [update_task] stores for [stored] and the patch [p]. *)
Definition updated_record (stored : TaskData) (p : TaskUpdate)
  (c : nat -> datetime) : TaskData :=
  rules_result (dict_update stored (defaulted_patch stored p)) c.

(** The record [create_task] stores, the clock being [c]. *)
Definition created_record (task : TaskCreate) (task_id : string)
  (c : nat -> datetime) : TaskData :=
  rules_result (new_task_data task task_id (c 0%nat) (c 1%nat))
    (fun k => c (2 + k)%nat).

(** The keys of the store, in insertion order. *)
Definition keys (db : list (string * TaskData)) : list string := map fst db.

(** The store is a dictionary, no key twice, and every record carries the
    key it is stored under as its [id]. *)
Definition store_ok (db : list (string * TaskData)) : Prop :=
  NoDup (keys db) /\ Forall (fun e => id (snd e) = fst e) db.

(** An entry with its flag blanked. *)
Definition without_flag (e : string * TaskData) : string * TaskData :=
  (fst e, set_is_overdue false (snd e)).

(** What the model [TaskCreate] accepts when the clock shows [t]. *)
Definition create_body_valid (body : TaskCreate) (t : datetime) : bool :=
  title_ok (tc_title body)
  && description_ok (tc_description body)
  && estimated_hours_ok (tc_estimated_hours body)
  && match tc_due_date body with Some due => t <? due | None => true end.

(** What the model [TaskUpdate] accepts when the clock shows [t]. *)
Definition patch_valid (p : TaskUpdate) (t : datetime) : bool :=
  patch_title_ok (tu_title p)
  && description_ok (attr (tu_description p))
  && estimated_hours_ok (attr (tu_estimated_hours p))
  && actual_hours_ok (attr (tu_actual_hours p))
  && match attr (tu_due_date p) with Some due => t <? due | None => true end.

(** The readings of the clock a validator takes. *)
Definition validation_reads (due : option datetime) : nat :=
  match due with Some _ => 1 | None => 0 end.

(** A listed task answers the filters of the request. *)
Definition obeys_filters (status_ : option TaskStatus)
  (priority_ : option TaskPriority) (overdue_only : bool) (t : Task) : Prop :=
  (forall s, status_ = Some s -> t_status t = s)
  /\ (forall p, priority_ = Some p -> t_priority t = p)
  /\ (overdue_only = true -> t_is_overdue t = true).

(** The patch does not set a field the response model requires to null. *)
Definition keeps_required_fields (p : TaskUpdate) : Prop :=
  tu_title p <> Supplied None /\ tu_priority p <> Supplied None
  /\ tu_status p <> Supplied None.

(** The task has the sort key [k]. *)
Definition has_key (k : bool * datetime) (t : Task) : bool :=
  Bool.eqb (fst (sort_key t)) (fst k) && (snd (sort_key t) =? snd k).

(** The hours the specification expects on a record completed with zero
    or no hours: the estimate stored before the update, or the fallback 1.0
    when there is none. *)
Definition claimed_completion_hours (stored : TaskData) : option float :=
  match estimated_hours stored with
  | Some e => Some e
  | None => Some 1%Q
  end.

(** Every character of the string is an ASCII character, so that its
    length in characters is [String.length]. *)
Definition is_ascii_string (s : string) : bool :=
  forallb (fun c => (nat_of_ascii c <? 128)%nat) (list_ascii_of_string s).

(** *** Sample data *)

Definition sample_clock (n : nat) : datetime := 1000 + Z.of_nat n.

Definition sample_uuids (n : nat) : string :=
  String (ascii_of_nat (97 + n)) EmptyString.

Definition sample_task (task_id : string) (p : TaskPriority) (s : TaskStatus)
  (due : option datetime) (created : datetime) : TaskData :=
  mkTaskData (Some "report") None (Some p) None due task_id (Some s)
    created created None false.

Definition sample_world (db : list (string * TaskData)) : World :=
  mkWorld db sample_clock sample_uuids.

Definition empty_patch : TaskUpdate :=
  mkTaskUpdate Unset Unset Unset Unset Unset Unset Unset.

Definition patch_status (s : TaskStatus) : TaskUpdate :=
  mkTaskUpdate Unset Unset Unset (Supplied (Some s)) Unset Unset Unset.

(** A store with an old task, an urgent one and a new one. *)
Definition sample_store : list (string * TaskData) :=
  [("a", sample_task "a" LOW PENDING (Some 10) 5);
   ("b", sample_task "b" URGENT IN_PROGRESS None 6);
   ("c", sample_task "c" HIGH COMPLETED (Some 10) 7)].

Definition sample_create (p : TaskPriority) (due : option datetime) : TaskCreate :=
  mkTaskCreate "report" None p None due.

(** A patch that completes a task and reports zero hours. *)
Definition patch_complete_zero_hours : TaskUpdate :=
  mkTaskUpdate Unset Unset Unset (Supplied (Some COMPLETED)) Unset Unset
    (Supplied (Some 0%Q)).

(** A patch that sets the description and the due date to null. *)
Definition patch_nulls : TaskUpdate :=
  mkTaskUpdate Unset (Supplied None) Unset Unset Unset (Supplied None) Unset.

(** A patch that sets the title to null. *)
Definition patch_null_title : TaskUpdate :=
  mkTaskUpdate (Supplied None) Unset Unset Unset Unset Unset Unset.

Definition sample_task_with_estimate : TaskData :=
  set_estimated_hours (Some 5%Q) (sample_task "a" LOW PENDING None 5).

(** A patch that completes a task and reports three hours. *)
Definition patch_complete_three_hours : TaskUpdate :=
  mkTaskUpdate Unset Unset Unset (Supplied (Some COMPLETED)) Unset Unset
    (Supplied (Some 3%Q)).

(** A patch that renames a task. *)
Definition patch_rename : TaskUpdate :=
  mkTaskUpdate (Supplied (Some "summary")) Unset Unset Unset Unset Unset Unset.

(** A patch that reports more hours than the field allows. *)
Definition patch_complete_out_of_range : TaskUpdate :=
  mkTaskUpdate Unset Unset Unset (Supplied (Some COMPLETED)) Unset Unset
    (Supplied (Some 201%Q)).

(** A store with two tasks of the same creation time and an urgent one. *)
Definition sample_ties : list (string * TaskData) :=
  [("x", sample_task "x" LOW PENDING None 5);
   ("y", sample_task "y" HIGH PENDING None 5);
   ("u", sample_task "u" URGENT PENDING None 1)].

(** A record with an estimate of five hours and three hours spent. *)
Definition sample_task_with_hours : TaskData :=
  set_actual_hours (Some 3%Q) sample_task_with_estimate.

(** A patch that completes a task, reports zero hours and a new estimate. *)
Definition patch_complete_zero_hours_new_estimate : TaskUpdate :=
  mkTaskUpdate Unset Unset Unset (Supplied (Some COMPLETED))
    (Supplied (Some 7%Q)) Unset (Supplied (Some 0%Q)).

(** The same record, completed. *)
Definition set_status_completed (d : TaskData) : TaskData :=
  mkTaskData (title d) (description d) (priority d) (estimated_hours d) (due_date d)
    (id d) (Some COMPLETED) (created_at d) (updated_at d) (actual_hours d)
    (is_overdue d).

(** ** Transition guard of [update_task] *)

(** C2: updating a stored task whose status is completed raises the
    invalid-transition error whenever the status read from the patch is not
    completed, in particular when the patch has no status at all; the world
    is left as it was. *)
Theorem C2_completed_task_rejects_other_status
  (task_id : string) (task_update : TaskUpdate) (w : World) (stored : TaskData)
  (Hstored : dict_get task_id (tasks_db w) = Some stored)
  (Hcompleted : status stored = Some COMPLETED)
  (Hpatch : attr (tu_status task_update) <> Some COMPLETED) :
  update_task task_id task_update w = (Raise InvalidTransitionError, w).
Proof.
  unfold update_task, bind, get_db.
  rewrite Hstored, Hcompleted.
  destruct (attr (tu_status task_update)) as [[]|] eqn:E; try reflexivity.
  now elim Hpatch.
Qed.

Lemma C2_witness_absent_status :
  update_task "a" empty_patch
    (sample_world [("a", sample_task "a" LOW COMPLETED None 5)])
  = (Raise InvalidTransitionError,
     sample_world [("a", sample_task "a" LOW COMPLETED None 5)]).
Proof.
  apply (C2_completed_task_rejects_other_status "a" empty_patch _
           (sample_task "a" LOW COMPLETED None 5)).
  - reflexivity.
  - reflexivity.
  - discriminate.
Defined.

(** ** Bulk delete *)

Lemma delete_all_tasks_blocked (w : World) :
  (0 < in_progress_count (tasks_db w))%nat ->
  delete_all_tasks false w
  = (Raise (ConflictError
              ("Cannot delete " ++ str_of_count (in_progress_count (tasks_db w))
               ++ " in-progress tasks. Use force=true to override")), w).
Proof.
  intros H. unfold delete_all_tasks, bind, get_db. cbn [negb andb].
  fold (in_progress_count (tasks_db w)).
  apply Nat.ltb_lt in H. rewrite H. reflexivity.
Qed.

Lemma delete_all_tasks_clears (force : bool) (w : World) :
  force = true \/ in_progress_count (tasks_db w) = 0%nat ->
  delete_all_tasks force w
  = (Ok ("Deleted " ++ str_of_count (List.length (tasks_db w))
         ++ " tasks successfully"),
     mkWorld [] (clock w) (uuids w)).
Proof.
  intros H. unfold delete_all_tasks, bind, get_db.
  fold (in_progress_count (tasks_db w)).
  destruct H as [-> | ->]; [reflexivity|].
  rewrite andb_false_r. reflexivity.
Qed.

(** C7: without [force], a store holding in-progress records makes the bulk
    delete raise the conflict error that reports their count, and nothing
    is deleted; with [force], or without such records, the whole store is
    emptied and the number of records it held is reported. *)
Theorem C7_bulk_delete_all_or_nothing (force : bool) (w : World) :
  (force = false -> (0 < in_progress_count (tasks_db w))%nat ->
     fst (delete_all_tasks force w)
     = Raise (ConflictError
                ("Cannot delete " ++ str_of_count (in_progress_count (tasks_db w))
                 ++ " in-progress tasks. Use force=true to override"))
     /\ tasks_db (snd (delete_all_tasks force w)) = tasks_db w)
  /\ (force = true \/ in_progress_count (tasks_db w) = 0%nat ->
     fst (delete_all_tasks force w)
     = Ok ("Deleted " ++ str_of_count (List.length (tasks_db w))
           ++ " tasks successfully")
     /\ tasks_db (snd (delete_all_tasks force w)) = []).
Proof.
  split.
  - intros -> H. rewrite (delete_all_tasks_blocked w H). split; reflexivity.
  - intros H. rewrite (delete_all_tasks_clears force w H). split; reflexivity.
Qed.

Lemma C7_witness_blocked_then_forced :
  (fst (delete_all_tasks false
          (sample_world [("a", sample_task "a" LOW IN_PROGRESS None 5);
                         ("b", sample_task "b" LOW PENDING None 6)]))
   = Raise (ConflictError
              "Cannot delete 1 in-progress tasks. Use force=true to override")
   /\ List.length
        (tasks_db (snd (delete_all_tasks false
          (sample_world [("a", sample_task "a" LOW IN_PROGRESS None 5);
                         ("b", sample_task "b" LOW PENDING None 6)])))) = 2%nat)
  /\ fst (delete_all_tasks true
          (sample_world [("a", sample_task "a" LOW IN_PROGRESS None 5);
                         ("b", sample_task "b" LOW PENDING None 6)]))
     = Ok "Deleted 2 tasks successfully".
Proof.
  split.
  - destruct (proj1 (C7_bulk_delete_all_or_nothing false
        (sample_world [("a", sample_task "a" LOW IN_PROGRESS None 5);
                       ("b", sample_task "b" LOW PENDING None 6)]))
        eq_refl) as [He Hs].
    + vm_compute. lia.
    + split; [exact He | rewrite Hs; reflexivity].
  - destruct (proj2 (C7_bulk_delete_all_or_nothing true
        (sample_world [("a", sample_task "a" LOW IN_PROGRESS None 5);
                       ("b", sample_task "b" LOW PENDING None 6)]))
        (or_introl eq_refl)) as [He _].
    exact He.
Defined.

(** ** The overdue flag *)

Lemma status_is_completed_false (v : option TaskStatus) :
  status_is v COMPLETED = false <-> v <> Some COMPLETED.
Proof.
  destruct v as [[]|]; cbn; split; intros H; try reflexivity; try discriminate;
    try (intros E; discriminate).
  now elim H.
Qed.

Lemma overdue_atb_spec (d : TaskData) (t : datetime) :
  overdue_atb d t = true <-> overdue_at d t.
Proof.
  unfold overdue_atb, overdue_at. destruct (due_date d) as [due|].
  - rewrite andb_true_iff, negb_true_iff, status_is_completed_false, Z.ltb_lt.
    split.
    + intros [H1 H2]. exists due. auto.
    + intros (due' & E & H1 & H2). injection E as <-. auto.
  - split; [discriminate|]. intros (due & E & _). discriminate.
Qed.

Lemma calculate_overdue_status_run (d : TaskData) (w : World) :
  calculate_overdue_status d w
  = (Ok (overdue_atb d (clock w 0%nat)), advance (reads d) w).
Proof.
  destruct w as [db c u].
  unfold calculate_overdue_status, overdue_atb, reads, advance, bind, now, ret.
  destruct (due_date d) as [due|]; [|reflexivity].
  destruct (status_is (status d) COMPLETED); reflexivity.
Qed.

Lemma Task_init_fields (d : TaskData) (t : Task) :
  Task_init d = Ok t ->
  title d = Some (t_title t) /\ description d = t_description t
  /\ priority d = Some (t_priority t) /\ estimated_hours d = t_estimated_hours t
  /\ due_date d = t_due_date t /\ id d = t_id t /\ status d = Some (t_status t)
  /\ created_at d = t_created_at t /\ updated_at d = t_updated_at t
  /\ actual_hours d = t_actual_hours t /\ is_overdue d = t_is_overdue t.
Proof.
  unfold Task_init.
  destruct (title d), (priority d), (status d); try discriminate.
  destruct (_ && _); [|discriminate].
  intros E. injection E as <-. cbn. repeat split.
Qed.

(** The flag plays no part in building the response model. *)
Lemma Task_init_set_is_overdue (b : bool) (d : TaskData) (t : Task) :
  Task_init d = Ok t ->
  Task_init (set_is_overdue b d)
  = Ok (mkTask (t_title t) (t_description t) (t_priority t)
          (t_estimated_hours t) (t_due_date t) (t_id t) (t_status t)
          (t_created_at t) (t_updated_at t) (t_actual_hours t) b).
Proof.
  unfold Task_init, set_is_overdue. cbn.
  destruct (title d), (priority d), (status d); try discriminate.
  destruct (_ && _); [|discriminate].
  intros E. injection E as <-. reflexivity.
Qed.

Lemma read_task_run (task_id : string) (w : World) (d : TaskData) :
  dict_get task_id (tasks_db w) = Some d ->
  read_task task_id w
  = (Task_init (set_is_overdue (overdue_atb d (clock w 0%nat)) d),
     advance (reads d) w).
Proof.
  intros H. unfold read_task, bind, get_db. rewrite H.
  rewrite calculate_overdue_status_run. unfold lift.
  destruct (Task_init _); reflexivity.
Qed.

(** ** The loop of [read_all_tasks] *)

Lemma refresh_shift (l : list (string * TaskData)) (c : nat -> datetime) (m : nat) :
  forall n, refresh l (fun i => c (m + i)%nat) n = refresh l c (m + n).
Proof.
  induction l as [|[k d] rest IH]; intros n; cbn [refresh]; [reflexivity|].
  rewrite IH, Nat.add_assoc. reflexivity.
Qed.

Lemma passes_set_is_overdue st pr ov (b : bool) (d : TaskData) :
  passes st pr ov (set_is_overdue b d)
  = match st with Some s => status_is (status d) s | None => true end
    && match pr with Some p => priority_is (priority d) p | None => true end
    && (if ov then b else true).
Proof. reflexivity. Qed.

(** One iteration, with the three [continue] tests read as one filter. *)
Lemma read_all_loop_step st pr ov (k : string) (d : TaskData)
  (seen rest : list (string * TaskData)) (acc : list Task) (w : World) :
  read_all_loop st pr ov seen ((k, d) :: rest) acc w
  = let d' := set_is_overdue (overdue_atb d (clock w 0%nat)) d in
    let w1 := mkWorld (seen ++ (k, d') :: rest)%list
                (fun j => clock w (reads d + j)%nat) (uuids w) in
    if passes st pr ov d'
    then match Task_init d' with
         | Ok t => read_all_loop st pr ov (seen ++ [(k, d')])%list rest
                     (acc ++ [t])%list w1
         | Raise e => (Raise e, w1)
         end
    else read_all_loop st pr ov (seen ++ [(k, d')])%list rest acc w1.
Proof.
  cbn [read_all_loop]. unfold bind at 1.
  rewrite calculate_overdue_status_run.
  unfold bind at 1, put_db at 1. cbn zeta.
  rewrite passes_set_is_overdue.
  cbn [advance tasks_db clock uuids set_is_overdue status priority is_overdue].
  destruct st as [s|], pr as [p|], ov;
    try destruct (status_is (status d) s);
    try destruct (priority_is (priority d) p);
    try destruct (overdue_atb d (clock w 0%nat));
    cbn [negb andb]; try reflexivity;
    unfold bind, lift; destruct (Task_init _); reflexivity.
Qed.

Lemma read_all_loop_run st pr ov :
  forall (todo seen : list (string * TaskData)) (acc : list Task) (w : World),
    tasks_db w = (seen ++ todo)%list ->
    Forall (fun e => conforms (snd e)) todo ->
    exists ts w',
      read_all_loop st pr ov seen todo acc w = (Ok (acc ++ ts)%list, w')
      /\ Forall2 (fun t d => Task_init d = Ok t) ts
           (filter (passes st pr ov) (map snd (refresh todo (clock w) 0)))
      /\ tasks_db w' = (seen ++ refresh todo (clock w) 0)%list
      /\ (forall j, clock w' j = clock w (total_reads todo + j)%nat).
Proof.
  induction todo as [|[k d] rest IH]; intros seen acc w Hdb Hwf.
  - exists [], w. cbn. rewrite app_nil_r. repeat split; auto.
  - inversion Hwf as [|e l Hd Hrest]; subst. cbn [snd] in Hd.
    rewrite read_all_loop_step. cbn zeta.
    set (d' := set_is_overdue (overdue_atb d (clock w 0%nat)) d).
    set (w1 := mkWorld (seen ++ (k, d') :: rest)%list
                 (fun j => clock w (reads d + j)%nat) (uuids w)).
    assert (Hdb1 : tasks_db w1 = ((seen ++ [(k, d')]) ++ rest)%list).
    { cbn. rewrite <- app_assoc. reflexivity. }
    assert (Hrefresh : refresh rest (clock w1) 0 = refresh rest (clock w) (0 + reads d)).
    { cbn [w1 clock]. rewrite refresh_shift, Nat.add_0_r. reflexivity. }
    assert (Hclock : forall w',
      (forall j, clock w' j = clock w1 (total_reads rest + j)%nat) ->
      forall j, clock w' j = clock w (total_reads ((k, d) :: rest) + j)%nat).
    { intros w' H j. rewrite H. cbn. f_equal. lia. }
    cbn [refresh map snd filter]. fold d'.
    destruct (passes st pr ov d') eqn:Epass.
    + destruct Hd as [t0 Ht0].
      pose proof (Task_init_set_is_overdue (overdue_atb d (clock w 0%nat)) d t0 Ht0) as Ht.
      fold d' in Ht. rewrite Ht.
      match type of Ht with _ = Ok ?x => set (t := x) in * end.
      destruct (IH (seen ++ [(k, d')])%list (acc ++ [t])%list w1 Hdb1 Hrest)
        as (ts & w' & H1 & H2 & H3 & H4).
      exists (t :: ts), w'. rewrite <- Hrefresh. repeat split.
      * rewrite H1, <- app_assoc. reflexivity.
      * constructor; assumption.
      * rewrite H3, <- app_assoc. reflexivity.
      * apply Hclock, H4.
    + destruct (IH (seen ++ [(k, d')])%list acc w1 Hdb1 Hrest)
        as (ts & w' & H1 & H2 & H3 & H4).
      exists ts, w'. rewrite <- Hrefresh. repeat split.
      * exact H1.
      * exact H2.
      * rewrite H3, <- app_assoc. reflexivity.
      * apply Hclock, H4.
Qed.

(** ** Sorting and truncation *)




Lemma insert_reverse_perm (x : Task) (l : list Task) :
  Permutation (x :: l) (insert_reverse tuple_lt sort_key x l).
Proof.
  induction l as [|y l IH]; cbn; [reflexivity|].
  destruct (tuple_lt (sort_key x) (sort_key y)); [|reflexivity].
  rewrite perm_swap. constructor. exact IH.
Qed.

Lemma sort_reverse_perm (l : list Task) :
  Permutation l (sort_reverse tuple_lt sort_key l).
Proof.
  induction l as [|x l IH]; cbn; [constructor|].
  rewrite <- insert_reverse_perm. constructor. exact IH.
Qed.




Lemma slice_to_firstn {A} (l : list A) (stop : Z) :
  0 <= stop -> slice_to l stop = firstn (Z.to_nat stop) l.
Proof.
  intros H. unfold slice_to. destruct (stop <? 0) eqn:E; [|reflexivity].
  apply Z.ltb_lt in E. lia.
Qed.

Lemma read_all_tasks_run st pr ov (limit : Z) (w : World) :
  Forall (fun e => conforms (snd e)) (tasks_db w) ->
  exists selected w',
    read_all_tasks st pr ov limit w
    = (Ok (slice_to (sort_reverse tuple_lt sort_key selected) limit), w')
    /\ Forall2 (fun t d => Task_init d = Ok t) selected
         (filter (passes st pr ov) (map snd (refresh (tasks_db w) (clock w) 0)))
    /\ tasks_db w' = refresh (tasks_db w) (clock w) 0
    /\ (forall j, clock w' j = clock w (total_reads (tasks_db w) + j)%nat).
Proof.
  intros Hwf.
  destruct (read_all_loop_run st pr ov (tasks_db w) [] [] w eq_refl Hwf)
    as (ts & w' & H1 & H2 & H3 & H4).
  exists ts, w'. unfold read_all_tasks, bind, get_db, ret.
  rewrite H1. cbn [app] in *. auto.
Qed.


(** ** The derivation rules and the writing handlers *)

Lemma lacks_urgent_due_date_rule_a (d : TaskData) (v : option float) :
  lacks_urgent_due_date (set_actual_hours v d) = lacks_urgent_due_date d.
Proof. reflexivity. Qed.

Lemma reads_cases (d : TaskData) : reads d = 0%nat \/ reads d = 1%nat.
Proof.
  unfold reads. destruct (due_date d); [|now left].
  destruct (status_is (status d) COMPLETED); [now left | now right].
Qed.

Lemma apply_business_rules_run (d : TaskData) (w : World) :
  apply_business_rules d w
  = (Ok (rules_result d (clock w)),
     advance (flag_reading d + reads (derived_fields d (clock w)) + 1) w).
Proof.
  destruct w as [db c u].
  unfold apply_business_rules, rules_result, derived_fields, flag_reading.
  unfold dict_get_default, has_estimated_hours.
  cbn [clock].
  destruct (status_is (status d) COMPLETED && negb (truthy_float (actual_hours d)));
    rewrite ?lacks_urgent_due_date_rule_a;
    unfold lacks_urgent_due_date at 1;
    fold (lacks_urgent_due_date d);
    cbn [priority due_date set_actual_hours];
    fold (lacks_urgent_due_date d);
    destruct (lacks_urgent_due_date d);
    unfold bind, now, ret; cbn [clock tasks_db uuids];
    rewrite calculate_overdue_status_run; cbn [clock tasks_db uuids advance];
    match goal with
    | |- context [reads ?x] => destruct (reads_cases x) as [E|E]; rewrite E
    end;
    reflexivity.
Qed.

Lemma update_task_run (task_id : string) (p : TaskUpdate) (w : World)
  (stored : TaskData) :
  dict_get task_id (tasks_db w) = Some stored ->
  transition_refused stored p = false ->
  exists w',
    update_task task_id p w = (Task_init (updated_record stored p (clock w)), w')
    /\ tasks_db w'
       = dict_set task_id (updated_record stored p (clock w)) (tasks_db w).
Proof.
  intros Hget Hguard. unfold update_task, bind at 1, get_db at 1.
  rewrite Hget. unfold transition_refused in Hguard. rewrite Hguard.
  replace (if status_is (attr (tu_status p)) COMPLETED
              && negb (status_is (status stored) COMPLETED)
           then if negb (truthy_float (attr (tu_actual_hours p)))
                   && negb (truthy_float (actual_hours stored))
                then assign_actual_hours
                       (dict_get_default (has_estimated_hours stored)
                          (estimated_hours stored) 1%Q) p
                else p
           else p)
    with (defaulted_patch stored p).
  2:{ unfold defaulted_patch, dict_get_default, has_estimated_hours.
      destruct (status_is (attr (tu_status p)) COMPLETED
                && negb (status_is (status stored) COMPLETED)); [|reflexivity].
      cbn [andb].
      destruct (negb (truthy_float (attr (tu_actual_hours p)))); reflexivity. }
  unfold bind at 1. rewrite apply_business_rules_run.
  unfold bind, get_db, put_db, lift, updated_record. cbn [advance tasks_db].
  eexists. split; reflexivity.
Qed.

Lemma create_task_run (task : TaskCreate) (w : World) :
  exists w',
    create_task task w
    = (Task_init (created_record task (uuids w 0%nat) (clock w)), w')
    /\ tasks_db w'
       = dict_set (uuids w 0%nat) (created_record task (uuids w 0%nat) (clock w))
           (tasks_db w).
Proof.
  destruct w as [db c u].
  unfold create_task, bind at 1, uuid4 at 1. cbn [clock uuids tasks_db].
  unfold bind at 1, now at 1. cbn [clock uuids tasks_db].
  unfold bind at 1, now at 1. cbn [clock uuids tasks_db].
  unfold bind at 1. rewrite apply_business_rules_run.
  unfold bind, get_db, put_db, lift, created_record, new_task_data.
  cbn [advance tasks_db clock uuids fst snd].
  eexists. split; reflexivity.
Qed.

Lemma dict_get_set_same (k : string) (v : TaskData) (db : list (string * TaskData)) :
  dict_get k (dict_set k v db) = Some v.
Proof.
  induction db as [|[k' v'] rest IH]; cbn.
  - now rewrite String.eqb_refl.
  - destruct (String.eqb k k') eqn:E; cbn; rewrite E; [reflexivity | exact IH].
Qed.

Lemma rules_result_flag (d : TaskData) (c : nat -> datetime) :
  is_overdue (rules_result d c)
  = overdue_atb (rules_result d c) (c (flag_reading d)).
Proof. reflexivity. Qed.

Lemma refresh_In (db : list (string * TaskData)) (c : nat -> datetime) :
  forall n e, In e (refresh db c n) ->
    exists k d m, In (k, d) db /\ e = (k, set_is_overdue (overdue_atb d (c m)) d).
Proof.
  induction db as [|[k d] rest IH]; intros n e H; cbn in H; [contradiction|].
  destruct H as [<- | H].
  - exists k, d, n. split; [now left | reflexivity].
  - destruct (IH _ _ H) as (k' & d' & m & Hin & ->).
    exists k', d', m. split; [now right | reflexivity].
Qed.

Lemma Forall2_In_left {A B} (R : A -> B -> Prop) (l : list A) (l' : list B) :
  Forall2 R l l' -> forall a, In a l -> exists b, In b l' /\ R a b.
Proof.
  induction 1 as [|x y l l' Hxy _ IH]; intros a Ha; [contradiction|].
  destruct Ha as [<- | Ha].
  - exists y. split; [now left | exact Hxy].
  - destruct (IH a Ha) as (b & Hb & Hab). exists b. split; [now right | exact Hab].
Qed.

Lemma firstn_In_list {A} (n : nat) (l : list A) (a : A) :
  In a (firstn n l) -> In a l.
Proof.
  revert l. induction n as [|n IH]; intros [|x l] H; cbn in H; try contradiction.
  destruct H as [<- | H]; [now left | right; apply IH, H].
Qed.

Lemma slice_to_In {A} (l : list A) (stop : Z) (a : A) :
  In a (slice_to l stop) -> In a l.
Proof.
  unfold slice_to. destruct (stop <? 0); apply firstn_In_list.
Qed.

(** Every task of a listing is a stored record whose flag was recomputed at
    one of the readings of the clock. *)
Lemma read_all_tasks_flags st pr ov (limit : Z) (w : World) :
  Forall (fun e => conforms (snd e)) (tasks_db w) ->
  exists ts,
    fst (read_all_tasks st pr ov limit w) = Ok ts
    /\ forall t, In t ts ->
         exists k d n,
           In (k, d) (tasks_db w)
           /\ Task_init (set_is_overdue (overdue_atb d (clock w n)) d) = Ok t.
Proof.
  intros Hwf.
  destruct (read_all_tasks_run st pr ov limit w Hwf) as (sel & w' & H1 & H2 & _).
  eexists. split; [rewrite H1; reflexivity|].
  intros t Ht. apply slice_to_In in Ht.
  apply (Permutation_in t (Permutation_sym (sort_reverse_perm sel))) in Ht.
  destruct (Forall2_In_left _ _ _ H2 t Ht) as (d' & Hd' & Hinit).
  apply filter_In in Hd'. destruct Hd' as [Hd' _].
  apply in_map_iff in Hd'. destruct Hd' as ([k0 d0] & E & Hin). cbn in E. subst d0.
  destruct (refresh_In _ _ _ _ Hin) as (k & d & m & Hdb & E).
  injection E as -> ->. exists k, d, m. split; assumption.
Qed.

(** C3: the flag a caller gets is the overdue condition of the record at
    the time of observation, whatever flag the store holds: so for the
    helper itself, for a read by id, for every task of a listing, and for
    the record returned by a create or an update.  A pending task whose due
    date has passed reads as overdue, the same task completed does not. *)
Theorem C3_is_overdue_recomputed_on_read_and_write :
  (forall d w, exists b w',
      calculate_overdue_status d w = (Ok b, w')
      /\ (b = true <-> overdue_at d (clock w 0%nat)))
  /\ (forall task_id w d t,
        dict_get task_id (tasks_db w) = Some d -> Task_init d = Ok t ->
        fst (read_task task_id w)
        = Ok (with_is_overdue (overdue_atb d (clock w 0%nat)) t)
        /\ (overdue_atb d (clock w 0%nat) = true <-> overdue_at d (clock w 0%nat)))
  /\ (forall st pr ov limit w,
        Forall (fun e => conforms (snd e)) (tasks_db w) ->
        exists ts,
          fst (read_all_tasks st pr ov limit w) = Ok ts
          /\ forall t, In t ts ->
               exists k d n,
                 In (k, d) (tasks_db w)
                 /\ Task_init (set_is_overdue (t_is_overdue t) d) = Ok t
                 /\ (t_is_overdue t = true <-> overdue_at d (clock w n)))
  /\ (forall task w t,
        fst (create_task task w) = Ok t ->
        exists r n,
          dict_get (uuids w 0%nat) (tasks_db (snd (create_task task w))) = Some r
          /\ Task_init r = Ok t
          /\ (t_is_overdue t = true <-> overdue_at r (clock w n)))
  /\ (forall task_id p w stored t,
        dict_get task_id (tasks_db w) = Some stored ->
        fst (update_task task_id p w) = Ok t ->
        exists r n,
          dict_get task_id (tasks_db (snd (update_task task_id p w))) = Some r
          /\ Task_init r = Ok t
          /\ (t_is_overdue t = true <-> overdue_at r (clock w n)))
  /\ (forall task_id w d t due,
        dict_get task_id (tasks_db w) = Some d -> Task_init d = Ok t ->
        due_date d = Some due -> due < clock w 0%nat ->
        (status d = Some PENDING ->
         fst (read_task task_id w) = Ok (with_is_overdue true t))
        /\ (status d = Some COMPLETED ->
            fst (read_task task_id w) = Ok (with_is_overdue false t))).
Proof.
  split; [|split; [|split; [|split; [|split]]]].
  - intros d w. rewrite calculate_overdue_status_run.
    do 2 eexists. split; [reflexivity | apply overdue_atb_spec].
  - intros task_id w d t Hget Hinit. rewrite (read_task_run task_id w d Hget).
    split; [|apply overdue_atb_spec].
    cbn [fst]. apply Task_init_set_is_overdue, Hinit.
  - intros st pr ov limit w Hwf.
    destruct (read_all_tasks_flags st pr ov limit w Hwf) as (ts & H1 & H2).
    exists ts. split; [exact H1|]. intros t Ht.
    destruct (H2 t Ht) as (k & d & n & Hin & Hinit).
    exists k, d, n. split; [exact Hin|].
    pose proof (Task_init_fields _ _ Hinit) as F.
    decompose [and] F. cbn in *.
    match goal with H : overdue_atb d _ = t_is_overdue t |- _ => rename H into Hflag end.
    rewrite <- Hflag. split; [exact Hinit | apply overdue_atb_spec].
  - intros task w t Hok.
    destruct (create_task_run task w) as (w' & Hrun & Hdb).
    rewrite Hrun in *. cbn [fst snd] in *. rewrite Hdb.
    eexists. exists (2 + flag_reading (new_task_data task (uuids w 0%nat)
                                        (clock w 0%nat) (clock w 1%nat)))%nat.
    split; [apply dict_get_set_same|]. split; [exact Hok|].
    pose proof (Task_init_fields _ _ Hok) as F. decompose [and] F.
    match goal with H : is_overdue _ = t_is_overdue t |- _ => rewrite <- H end.
    unfold created_record. rewrite rules_result_flag. apply overdue_atb_spec.
  - intros task_id p w stored t Hget Hok.
    destruct (transition_refused stored p) eqn:Eguard.
    + exfalso. unfold update_task, bind, get_db in Hok. rewrite Hget in Hok.
      unfold transition_refused in Eguard. rewrite Eguard in Hok. discriminate.
    + destruct (update_task_run task_id p w stored Hget Eguard) as (w' & Hrun & Hdb).
      rewrite Hrun in *. cbn [fst snd] in *. rewrite Hdb.
      eexists. exists (flag_reading (dict_update stored (defaulted_patch stored p))).
      split; [apply dict_get_set_same|]. split; [exact Hok|].
      pose proof (Task_init_fields _ _ Hok) as F. decompose [and] F.
      match goal with H : is_overdue _ = t_is_overdue t |- _ => rewrite <- H end.
      unfold updated_record. rewrite rules_result_flag. apply overdue_atb_spec.
  - intros task_id w d t due Hget Hinit Hdue Hpast.
    rewrite (read_task_run task_id w d Hget). cbn [fst].
    split; intros Hst.
    + rewrite (Task_init_set_is_overdue _ d t Hinit). unfold with_is_overdue.
      unfold overdue_atb. rewrite Hdue, Hst. cbn.
      apply Z.ltb_lt in Hpast. now rewrite Hpast.
    + rewrite (Task_init_set_is_overdue _ d t Hinit). unfold with_is_overdue.
      unfold overdue_atb. rewrite Hdue, Hst. reflexivity.
Qed.

(** ** Reading by id against listing *)

Lemma refresh_pointwise (db : list (string * TaskData)) (c : nat -> datetime) :
  forall n,
    Forall2 (fun old new =>
               fst new = fst old
               /\ exists m, snd new = set_is_overdue (overdue_atb (snd old) (c m)) (snd old))
      db (refresh db c n).
Proof.
  induction db as [|[k d] rest IH]; intros n; cbn [refresh]; constructor.
  - split; [reflexivity|]. exists n. reflexivity.
  - apply IH.
Qed.

(** C8: reading a stored task by id returns the record with a freshly
    computed flag and leaves the store, the stored flag included, as it
    was; a listing writes the recomputed flag into every stored record. *)
Theorem C8_get_copies_list_rewrites_stored_flags
  (task_id : string) (w : World) (d : TaskData) (t : Task)
  (Hstored : dict_get task_id (tasks_db w) = Some d)
  (Hmodel : Task_init d = Ok t) :
  (fst (read_task task_id w) = Ok (with_is_overdue (overdue_atb d (clock w 0%nat)) t)
   /\ tasks_db (snd (read_task task_id w)) = tasks_db w)
  /\ (forall st pr ov limit,
        Forall (fun e => conforms (snd e)) (tasks_db w) ->
        Forall2 (fun old new =>
                   fst new = fst old
                   /\ exists m, snd new
                        = set_is_overdue (overdue_atb (snd old) (clock w m)) (snd old))
          (tasks_db w) (tasks_db (snd (read_all_tasks st pr ov limit w)))).
Proof.
  split.
  - rewrite (read_task_run task_id w d Hstored). cbn [fst snd advance tasks_db].
    split; [|reflexivity]. apply Task_init_set_is_overdue, Hmodel.
  - intros st pr ov limit Hwf.
    destruct (read_all_tasks_run st pr ov limit w Hwf) as (sel & w' & H1 & _ & H3 & _).
    rewrite H1. cbn [snd]. rewrite H3. apply refresh_pointwise.
Qed.

(** ** Urgent tasks without a due date *)

Lemma rules_result_frame (d : TaskData) (c : nat -> datetime) :
  title (rules_result d c) = title d
  /\ description (rules_result d c) = description d
  /\ priority (rules_result d c) = priority d
  /\ estimated_hours (rules_result d c) = estimated_hours d
  /\ id (rules_result d c) = id d
  /\ status (rules_result d c) = status d
  /\ created_at (rules_result d c) = created_at d.
Proof.
  unfold rules_result, derived_fields.
  destruct (status_is (status d) COMPLETED && negb (truthy_float (actual_hours d)));
    match goal with |- context [lacks_urgent_due_date ?x] =>
      destruct (lacks_urgent_due_date x) end;
    repeat split.
Qed.

Lemma rules_result_due_date (d : TaskData) (c : nat -> datetime) :
  due_date (rules_result d c)
  = if lacks_urgent_due_date d then Some (c 0%nat + timedelta 1) else due_date d.
Proof.
  unfold rules_result, derived_fields.
  destruct (status_is (status d) COMPLETED && negb (truthy_float (actual_hours d)));
    rewrite ?lacks_urgent_due_date_rule_a;
    destruct (lacks_urgent_due_date d); reflexivity.
Qed.

Lemma Task_init_ok (d : TaskData) (ti : string) (p : TaskPriority) (s : TaskStatus) :
  title d = Some ti -> priority d = Some p -> status d = Some s ->
  title_ok ti = true -> description_ok (description d) = true ->
  estimated_hours_ok (estimated_hours d) = true ->
  Task_init d
  = Ok (mkTask ti (description d) p (estimated_hours d) (due_date d) (id d) s
          (created_at d) (updated_at d) (actual_hours d) (is_overdue d)).
Proof.
  intros Ht Hp Hs H1 H2 H3. unfold Task_init. rewrite Ht, Hp, Hs, H1, H2, H3.
  reflexivity.
Qed.

Lemma created_record_conforms (task : TaskCreate) (task_id : string)
  (c : nat -> datetime) :
  title_ok (tc_title task) = true ->
  description_ok (tc_description task) = true ->
  estimated_hours_ok (tc_estimated_hours task) = true ->
  exists t,
    Task_init (created_record task task_id c) = Ok t
    /\ t_due_date t = due_date (created_record task task_id c)
    /\ t_is_overdue t = is_overdue (created_record task task_id c)
    /\ t_id t = task_id /\ t_status t = PENDING.
Proof.
  intros H1 H2 H3. unfold created_record.
  set (d0 := new_task_data task task_id (c 0%nat) (c 1%nat)).
  destruct (rules_result_frame d0 (fun k => c (2 + k)%nat))
    as (Ft & Fd & Fp & Fe & Fi & Fs & _).
  eexists. split.
  - apply (Task_init_ok _ (tc_title task) (tc_priority task) PENDING).
    + rewrite Ft. reflexivity.
    + rewrite Fp. reflexivity.
    + rewrite Fs. reflexivity.
    + exact H1.
    + rewrite Fd. exact H2.
    + rewrite Fe. exact H3.
  - cbn [t_due_date t_is_overdue t_id t_status]. rewrite Fi. repeat split.
Qed.

Lemma post_tasks_without_due_date (body : TaskCreate) (w : World) :
  tc_due_date body = None ->
  title_ok (tc_title body) = true ->
  description_ok (tc_description body) = true ->
  estimated_hours_ok (tc_estimated_hours body) = true ->
  post_tasks body w = create_task body w.
Proof.
  intros Hd H1 H2 H3. unfold post_tasks, TaskCreate_validate, bind at 1 2.
  rewrite Hd, H1, H2, H3. reflexivity.
Qed.

(** C5: when the record has urgent priority and no due date, the rules set
    the due date to the reading of the clock plus 24 hours, on create and
    on update alike; an urgent task created without due date is returned
    not overdue, the flag being computed less than 24 hours later. *)
Theorem C5_urgent_without_due_date_gets_tomorrow :
  (forall d w, priority d = Some URGENT -> due_date d = None ->
     exists r w',
       apply_business_rules d w = (Ok r, w')
       /\ due_date r = Some (clock w 0%nat + timedelta 1))
  /\ (forall body w,
        tc_priority body = URGENT -> tc_due_date body = None ->
        title_ok (tc_title body) = true ->
        description_ok (tc_description body) = true ->
        estimated_hours_ok (tc_estimated_hours body) = true ->
        exists t,
          fst (post_tasks body w) = Ok t
          /\ t_due_date t = Some (clock w 2%nat + timedelta 1)
          /\ (clock w 3%nat <= clock w 2%nat + timedelta 1 -> t_is_overdue t = false))
  /\ (forall task_id p w stored,
        dict_get task_id (tasks_db w) = Some stored ->
        transition_refused stored p = false ->
        merge_field (tu_priority p) (priority stored) = Some URGENT ->
        merge_field (tu_due_date p) (due_date stored) = None ->
        exists r,
          dict_get task_id (tasks_db (snd (update_task task_id p w))) = Some r
          /\ priority r = Some URGENT
          /\ due_date r = Some (clock w 0%nat + timedelta 1)).
Proof.
  split; [|split].
  - intros d w Hp Hd. rewrite apply_business_rules_run. do 2 eexists.
    split; [reflexivity|]. rewrite rules_result_due_date.
    unfold lacks_urgent_due_date. rewrite Hp, Hd. reflexivity.
  - intros body w Hp Hd H1 H2 H3.
    rewrite (post_tasks_without_due_date body w Hd H1 H2 H3).
    destruct (create_task_run body w) as (w' & Hrun & _). rewrite Hrun. cbn [fst].
    destruct (created_record_conforms body (uuids w 0%nat) (clock w) H1 H2 H3)
      as (t & Ht & Hdue & Hflag & _).
    exists t. split; [exact Ht|].
    assert (Hl : lacks_urgent_due_date
                   (new_task_data body (uuids w 0%nat) (clock w 0%nat) (clock w 1%nat))
                 = true).
    { unfold lacks_urgent_due_date, new_task_data. cbn. rewrite Hp, Hd. reflexivity. }
    assert (Hdue' : due_date (created_record body (uuids w 0%nat) (clock w))
                    = Some (clock w 2%nat + timedelta 1)).
    { unfold created_record. rewrite rules_result_due_date, Hl. reflexivity. }
    split; [rewrite Hdue; exact Hdue'|].
    intros Hclock. rewrite Hflag. unfold created_record in *.
    rewrite rules_result_flag. unfold overdue_atb. rewrite Hdue'.
    unfold flag_reading. rewrite Hl. cbn [Nat.add].
    replace (clock w 2%nat + timedelta 1 <? clock w 3%nat) with false.
    + apply andb_false_r.
    + symmetry. apply Z.ltb_ge. exact Hclock.
  - intros task_id p w stored Hget Hguard Hp Hd.
    destruct (update_task_run task_id p w stored Hget Hguard) as (w' & Hrun & Hdb).
    rewrite Hrun. cbn [snd]. rewrite Hdb. eexists.
    split; [apply dict_get_set_same|].
    unfold updated_record.
    set (m := dict_update stored (defaulted_patch stored p)).
    assert (Hmp : priority m = Some URGENT).
    { unfold m, dict_update, defaulted_patch. cbn [priority].
      destruct (_ && _); exact Hp. }
    assert (Hmd : due_date m = None).
    { unfold m, dict_update, defaulted_patch. cbn [due_date].
      destruct (_ && _); exact Hd. }
    destruct (rules_result_frame m (clock w)) as (_ & _ & Fp & _).
    split; [rewrite Fp; exact Hmp|].
    rewrite rules_result_due_date. unfold lacks_urgent_due_date.
    rewrite Hmp, Hmd. reflexivity.
Qed.

(** ** The due date of a request must lie in the future *)

Lemma TaskCreate_validate_run (body : TaskCreate) (w : World) (due : datetime) :
  tc_due_date body = Some due ->
  TaskCreate_validate body w
  = (if title_ok (tc_title body) && description_ok (tc_description body)
        && estimated_hours_ok (tc_estimated_hours body)
        && negb (due <=? clock w 0%nat)
     then Ok body else Raise RequestValidationError,
     advance 1 w).
Proof.
  intros Hd. unfold TaskCreate_validate, due_date_must_be_future. rewrite Hd.
  unfold bind, now, ret, raise, advance. cbn [clock tasks_db uuids Nat.add].
  destruct (_ && _ && _ && _); reflexivity.
Qed.

Lemma TaskUpdate_validate_run (body : TaskUpdate) (w : World) (due : datetime) :
  attr (tu_due_date body) = Some due ->
  TaskUpdate_validate body w
  = (if patch_title_ok (tu_title body)
        && description_ok (attr (tu_description body))
        && estimated_hours_ok (attr (tu_estimated_hours body))
        && actual_hours_ok (attr (tu_actual_hours body))
        && negb (due <=? clock w 0%nat)
     then Ok body else Raise RequestValidationError,
     advance 1 w).
Proof.
  intros Hd. unfold TaskUpdate_validate, due_date_validation. rewrite Hd.
  unfold bind, now, ret, raise, advance. cbn [clock tasks_db uuids Nat.add].
  destruct (_ && _ && _ && _ && _); reflexivity.
Qed.

(** C6: a create or update request that supplies a due date not strictly
    later than the clock is rejected as invalid and the store is not
    touched; a create with a strictly later due date (and valid other
    fields) succeeds and keeps that date, an update with one is handed to
    the handler; reading a stored task never checks its due date. *)
Theorem C6_supplied_due_date_must_be_in_the_future :
  (forall body w due,
     tc_due_date body = Some due -> due <= clock w 0%nat ->
     fst (post_tasks body w) = Raise RequestValidationError
     /\ tasks_db (snd (post_tasks body w)) = tasks_db w)
  /\ (forall body w due,
        tc_due_date body = Some due -> clock w 0%nat < due ->
        title_ok (tc_title body) = true ->
        description_ok (tc_description body) = true ->
        estimated_hours_ok (tc_estimated_hours body) = true ->
        exists t,
          fst (post_tasks body w) = Ok t
          /\ t_due_date t = Some due
          /\ dict_contains (t_id t) (tasks_db (snd (post_tasks body w))) = true)
  /\ (forall task_id body w due,
        attr (tu_due_date body) = Some due -> due <= clock w 0%nat ->
        fst (put_task task_id body w) = Raise RequestValidationError
        /\ tasks_db (snd (put_task task_id body w)) = tasks_db w)
  /\ (forall task_id body w due,
        attr (tu_due_date body) = Some due -> clock w 0%nat < due ->
        patch_title_ok (tu_title body) = true ->
        description_ok (attr (tu_description body)) = true ->
        estimated_hours_ok (attr (tu_estimated_hours body)) = true ->
        actual_hours_ok (attr (tu_actual_hours body)) = true ->
        put_task task_id body w = update_task task_id body (advance 1 w))
  /\ (forall task_id w d t due,
        dict_get task_id (tasks_db w) = Some d -> Task_init d = Ok t ->
        due_date d = Some due ->
        exists t', fst (read_task task_id w) = Ok t' /\ t_due_date t' = Some due).
Proof.
  split; [|split; [|split; [|split]]].
  - intros body w due Hd Hpast. unfold post_tasks, bind.
    rewrite (TaskCreate_validate_run body w due Hd).
    apply Z.leb_le in Hpast. rewrite Hpast. cbn [negb].
    rewrite andb_false_r. split; reflexivity.
  - intros body w due Hd Hfuture H1 H2 H3. unfold post_tasks, bind.
    rewrite (TaskCreate_validate_run body w due Hd), H1, H2, H3.
    replace (due <=? clock w 0%nat) with false
      by (symmetry; apply Z.leb_gt; exact Hfuture).
    cbn [negb andb].
    destruct (create_task_run body (advance 1 w)) as (w' & Hrun & Hdb).
    rewrite Hrun. cbn [fst snd].
    destruct (created_record_conforms body (uuids (advance 1 w) 0%nat)
                (clock (advance 1 w)) H1 H2 H3) as (t & Ht & Hdue & _ & Hid & _).
    exists t. split; [exact Ht|]. split.
    + rewrite Hdue. unfold created_record. rewrite rules_result_due_date.
      unfold lacks_urgent_due_date, new_task_data. cbn [priority due_date].
      rewrite Hd. cbn [truthy_datetime negb]. rewrite andb_false_r. reflexivity.
    + rewrite Hdb, Hid. unfold dict_contains. rewrite dict_get_set_same.
      reflexivity.
  - intros task_id body w due Hd Hpast. unfold put_task, bind.
    rewrite (TaskUpdate_validate_run body w due Hd).
    apply Z.leb_le in Hpast. rewrite Hpast. cbn [negb].
    rewrite andb_false_r. split; reflexivity.
  - intros task_id body w due Hd Hfuture H1 H2 H3 H4. unfold put_task, bind.
    rewrite (TaskUpdate_validate_run body w due Hd), H1, H2, H3, H4.
    replace (due <=? clock w 0%nat) with false
      by (symmetry; apply Z.leb_gt; exact Hfuture).
    reflexivity.
  - intros task_id w d t due Hget Hinit Hdue.
    rewrite (read_task_run task_id w d Hget). cbn [fst].
    rewrite (Task_init_set_is_overdue _ d t Hinit). eexists.
    split; [reflexivity|]. cbn [t_due_date].
    destruct (Task_init_fields d t Hinit) as (_ & _ & _ & _ & F & _).
    rewrite <- F. exact Hdue.
Qed.

(** ** Completion and the hours actually spent *)

Lemma rules_result_actual_hours (d : TaskData) (c : nat -> datetime) :
  actual_hours (rules_result d c)
  = if status_is (status d) COMPLETED && negb (truthy_float (actual_hours d))
    then estimated_hours d else actual_hours d.
Proof.
  unfold rules_result, derived_fields.
  destruct (status_is (status d) COMPLETED && negb (truthy_float (actual_hours d)));
    match goal with |- context [lacks_urgent_due_date ?x] =>
      destruct (lacks_urgent_due_date x) end;
    reflexivity.
Qed.

Lemma merged_fields (stored : TaskData) (p : TaskUpdate) :
  let m := dict_update stored (defaulted_patch stored p) in
  title m = merge_field (tu_title p) (title stored)
  /\ description m = merge_field (tu_description p) (description stored)
  /\ priority m = merge_field (tu_priority p) (priority stored)
  /\ status m = merge_field (tu_status p) (status stored)
  /\ estimated_hours m = merge_field (tu_estimated_hours p) (estimated_hours stored)
  /\ due_date m = merge_field (tu_due_date p) (due_date stored).
Proof.
  unfold defaulted_patch. destruct (_ && _ && _ && _); repeat split.
Qed.

Lemma attr_Some {A} (f : PatchField A) (a : A) :
  attr f = Some a -> f = Supplied (Some a).
Proof. destruct f as [|[x|]]; cbn; intros H; try discriminate. now injection H as ->. Qed.

(** The hours stored by an update that completes a task. *)
Lemma completing_update_actual_hours (stored : TaskData) (p : TaskUpdate)
  (c : nat -> datetime) :
  status stored <> Some COMPLETED ->
  attr (tu_status p) = Some COMPLETED ->
  actual_hours (updated_record stored p c)
  = let merged :=
      if negb (truthy_float (attr (tu_actual_hours p)))
         && negb (truthy_float (actual_hours stored))
      then estimated_hours stored
      else merge_field (tu_actual_hours p) (actual_hours stored) in
    if truthy_float merged then merged
    else merge_field (tu_estimated_hours p) (estimated_hours stored).
Proof.
  intros Hst Hp. apply status_is_completed_false in Hst.
  unfold updated_record. rewrite rules_result_actual_hours.
  destruct (merged_fields stored p) as (_ & _ & _ & Fs & Fe & _).
  rewrite Fs, Fe. rewrite (attr_Some _ _ Hp). cbn [merge_field status_is TaskStatus_eqb andb].
  unfold defaulted_patch. rewrite Hp, Hst. cbn [status_is TaskStatus_eqb negb andb].
  destruct (negb (truthy_float (attr (tu_actual_hours p)))
            && negb (truthy_float (actual_hours stored)));
    cbn [dict_update assign_actual_hours tu_actual_hours actual_hours merge_field];
    match goal with |- context [truthy_float ?x] => destruct (truthy_float x) end;
    reflexivity.
Qed.

Lemma completing_update_stored (task_id : string) (p : TaskUpdate) (w : World)
  (stored : TaskData) :
  dict_get task_id (tasks_db w) = Some stored ->
  status stored <> Some COMPLETED ->
  attr (tu_status p) = Some COMPLETED ->
  dict_get task_id (tasks_db (snd (update_task task_id p w)))
  = Some (updated_record stored p (clock w))
  /\ fst (update_task task_id p w) = Task_init (updated_record stored p (clock w))
  /\ status (updated_record stored p (clock w)) = Some COMPLETED.
Proof.
  intros Hget Hst Hp.
  assert (Hguard : transition_refused stored p = false).
  { unfold transition_refused. apply status_is_completed_false in Hst.
    now rewrite Hst. }
  destruct (update_task_run task_id p w stored Hget Hguard) as (w' & Hrun & Hdb).
  rewrite Hrun. cbn [fst snd]. rewrite Hdb.
  split; [apply dict_get_set_same|]. split; [reflexivity|].
  unfold updated_record.
  destruct (rules_result_frame (dict_update stored (defaulted_patch stored p)) (clock w))
    as (_ & _ & _ & _ & _ & Fs & _).
  rewrite Fs. destruct (merged_fields stored p) as (_ & _ & _ & Fs' & _).
  rewrite Fs', (attr_Some _ _ Hp). reflexivity.
Qed.

(** C1: where a task is completed with no hours in the patch and none
    stored, the hours become the stored estimate; with no estimate either
    the lookup [get('estimated_hours', 1.0)] finds the key with the value
    [None], so the hours stay absent and the fallback 1.0 is never stored.
    The same holds when the derivation rules alone see a completed record
    without hours. *)
Theorem C1_completion_default_hours
  (task_id : string) (p : TaskUpdate) (w : World) (stored : TaskData)
  (Hstored : dict_get task_id (tasks_db w) = Some stored)
  (Hstatus : status stored <> Some COMPLETED)
  (Hpatch : attr (tu_status p) = Some COMPLETED)
  (Hpatch_hours : attr (tu_actual_hours p) = None)
  (Hstored_hours : actual_hours stored = None)
  (Hpatch_estimate : tu_estimated_hours p = Unset) :
  (exists r,
     dict_get task_id (tasks_db (snd (update_task task_id p w))) = Some r
     /\ status r = Some COMPLETED
     /\ actual_hours r = estimated_hours stored
     /\ (estimated_hours stored = None -> actual_hours r <> Some 1%Q))
  /\ (forall d w0, status d = Some COMPLETED -> actual_hours d = None ->
        exists r w',
          apply_business_rules d w0 = (Ok r, w')
          /\ actual_hours r = estimated_hours d).
Proof.
  split.
  - destruct (completing_update_stored task_id p w stored Hstored Hstatus Hpatch)
      as (Hget & _ & Hst).
    eexists. split; [exact Hget|]. split; [exact Hst|].
    assert (E : actual_hours (updated_record stored p (clock w))
                = estimated_hours stored).
    { rewrite (completing_update_actual_hours stored p (clock w) Hstatus Hpatch).
      rewrite Hpatch_hours, Hstored_hours, Hpatch_estimate.
      cbn [truthy_float negb andb merge_field].
      destruct (truthy_float (estimated_hours stored)); reflexivity. }
    split; [exact E|]. intros Hnone. rewrite E, Hnone. discriminate.
  - intros d w0 Hst Hh. rewrite apply_business_rules_run. do 2 eexists.
    split; [reflexivity|]. rewrite rules_result_actual_hours, Hst, Hh. reflexivity.
Qed.

Lemma truthy_float_zero (x : float) : x == 0 -> truthy_float (Some x) = false.
Proof.
  intros E. cbn. apply negb_false_iff, Qeq_bool_iff, E.
Qed.

Lemma completing_patch_passes_guard (stored : TaskData) (p : TaskUpdate) :
  attr (tu_status p) = Some COMPLETED -> transition_refused stored p = false.
Proof.
  intros Hp. unfold transition_refused. rewrite Hp. apply andb_false_r.
Qed.

Lemma completing_patch_stored (task_id : string) (p : TaskUpdate) (w : World)
  (stored : TaskData) :
  dict_get task_id (tasks_db w) = Some stored ->
  attr (tu_status p) = Some COMPLETED ->
  dict_get task_id (tasks_db (snd (update_task task_id p w)))
  = Some (updated_record stored p (clock w))
  /\ status (updated_record stored p (clock w)) = Some COMPLETED
  /\ estimated_hours (updated_record stored p (clock w))
     = merge_field (tu_estimated_hours p) (estimated_hours stored).
Proof.
  intros Hget Hp.
  destruct (update_task_run task_id p w stored Hget
              (completing_patch_passes_guard stored p Hp)) as (w' & Hrun & Hdb).
  rewrite Hrun. cbn [snd]. rewrite Hdb.
  split; [apply dict_get_set_same|].
  unfold updated_record.
  destruct (rules_result_frame (dict_update stored (defaulted_patch stored p)) (clock w))
    as (_ & _ & _ & Fe & _ & Fs & _).
  destruct (merged_fields stored p) as (_ & _ & _ & Ms & Me & _).
  rewrite Fs, Fe, Ms, Me, (attr_Some _ _ Hp). split; reflexivity.
Qed.

(** The hours stored by a completing update whose hours are zero, in the
    patch or in the store. *)
Lemma zero_hours_update_actual_hours (stored : TaskData) (p : TaskUpdate)
  (c : nat -> datetime) :
  attr (tu_status p) = Some COMPLETED ->
  (exists x, attr (tu_actual_hours p) = Some x /\ x == 0)
  \/ (attr (tu_actual_hours p) = None
      /\ exists x, actual_hours stored = Some x /\ x == 0) ->
  actual_hours (updated_record stored p c)
  = if negb (status_is (status stored) COMPLETED)
       && truthy_float (estimated_hours stored)
       && negb (truthy_float (actual_hours stored))
    then estimated_hours stored
    else merge_field (tu_estimated_hours p) (estimated_hours stored).
Proof.
  intros Hp Hzero.
  destruct (status_is (status stored) COMPLETED) eqn:Hst.
  - cbn [negb andb]. unfold updated_record. rewrite rules_result_actual_hours.
    destruct (merged_fields stored p) as (_ & _ & _ & Ms & Me & _).
    rewrite Ms, Me, (attr_Some _ _ Hp).
    cbn [merge_field status_is TaskStatus_eqb andb].
    unfold defaulted_patch. rewrite Hst. cbn [negb]. rewrite andb_false_r.
    cbn [andb dict_update actual_hours].
    replace (truthy_float (merge_field (tu_actual_hours p) (actual_hours stored)))
      with false; [reflexivity|].
    destruct Hzero as [(x & Hx & Ex) | (Hn & x & Hx & Ex)].
    + rewrite (attr_Some _ _ Hx). cbn [merge_field].
      symmetry. apply truthy_float_zero, Ex.
    + destruct (tu_actual_hours p) as [|v]; cbn [merge_field attr] in *.
      * rewrite Hx. symmetry. apply truthy_float_zero, Ex.
      * rewrite Hn. reflexivity.
  - cbn [negb andb]. apply status_is_completed_false in Hst.
    rewrite (completing_update_actual_hours stored p c Hst Hp).
    cbn zeta. destruct Hzero as [(x & Hx & Ex) | (Hn & x & Hx & Ex)].
    + rewrite Hx, (truthy_float_zero x Ex). cbn [negb andb].
      rewrite (attr_Some _ _ Hx). cbn [merge_field].
      destruct (truthy_float (actual_hours stored)); cbn [negb andb].
      * rewrite (truthy_float_zero x Ex), andb_false_r. reflexivity.
      * rewrite andb_true_r.
        destruct (truthy_float (estimated_hours stored)); reflexivity.
    + rewrite Hn, Hx, (truthy_float_zero x Ex). cbn [truthy_float negb andb].
      rewrite andb_true_r.
      destruct (truthy_float (estimated_hours stored)); reflexivity.
Qed.

(** C9, as amended: hours of zero count as absent when the patch of an
    update has status completed, whether the zero is in the patch or in
    the store and whether the task was completed before or not.  Where the
    task was not completed and has no hours of its own, they become the
    estimate stored before the update, if there is one; where the task was
    completed already or has hours of its own, they become the estimate of
    the record after the merge, the one of the patch included, if there is
    one.  In both cases they do not stay zero, although zero passes the
    range check of the field.  Nothing is said of the case where the
    estimate that is looked up is absent. *)
Theorem C9_zero_hours_are_replaced_by_an_estimate
  (task_id : string) (p : TaskUpdate) (w : World) (stored : TaskData)
  (Hstored : dict_get task_id (tasks_db w) = Some stored)
  (Hpatch : attr (tu_status p) = Some COMPLETED)
  (Hzero : (exists x, attr (tu_actual_hours p) = Some x /\ x == 0)
           \/ (attr (tu_actual_hours p) = None
               /\ exists x, actual_hours stored = Some x /\ x == 0)) :
  actual_hours_ok (Some 0%Q) = true
  /\ exists r,
       dict_get task_id (tasks_db (snd (update_task task_id p w))) = Some r
       /\ status r = Some COMPLETED
       /\ estimated_hours r
          = merge_field (tu_estimated_hours p) (estimated_hours stored)
       /\ (forall e,
             status stored <> Some COMPLETED ->
             truthy_float (actual_hours stored) = false ->
             estimated_hours stored = Some e -> ~ e == 0 ->
             actual_hours r = Some e)
       /\ (forall e,
             status stored = Some COMPLETED
             \/ truthy_float (actual_hours stored) = true ->
             estimated_hours r = Some e ->
             actual_hours r = Some e).
Proof.
  split; [reflexivity|].
  destruct (completing_patch_stored task_id p w stored Hstored Hpatch)
    as (Hget & Hst & He).
  eexists. split; [exact Hget|]. split; [exact Hst|]. split; [exact He|].
  pose proof (zero_hours_update_actual_hours stored p (clock w) Hpatch Hzero) as E.
  split.
  - intros e Hs Ha Hest Hne. rewrite E.
    apply status_is_completed_false in Hs. rewrite Hs, Ha, Hest.
    replace (truthy_float (Some e)) with true; [reflexivity|].
    symmetry. cbn. apply negb_true_iff.
    destruct (Qeq_bool e 0) eqn:Q; [|reflexivity].
    apply Qeq_bool_iff in Q. contradiction.
  - intros e Hcase Hest. rewrite E, <- He, Hest.
    destruct Hcase as [Hs | Ha].
    + rewrite Hs. reflexivity.
    + rewrite Ha. cbn [negb]. rewrite andb_false_r. reflexivity.
Qed.

(** C9, as it was stated, fails on two inputs.  A task with an estimate
    of five hours and three hours spent, completed by a patch with zero
    hours and an estimate of seven, ends with seven hours, the estimate of
    the patch, and not the five estimated before.  A task without estimate
    completed with zero hours ends without hours, and not with the
    fallback. *)
Lemma C9_counterexample_claimed_hours_are_not_stored :
  option_map actual_hours
    (dict_get "a"
       (tasks_db (snd (update_task "a" patch_complete_zero_hours_new_estimate
                         (sample_world [("a", sample_task_with_hours)])))))
  <> Some (claimed_completion_hours sample_task_with_hours)
  /\ option_map actual_hours
       (dict_get "a"
          (tasks_db (snd (update_task "a" patch_complete_zero_hours
                            (sample_world [("a", sample_task "a" LOW PENDING None 5)])))))
     <> Some (claimed_completion_hours (sample_task "a" LOW PENDING None 5)).
Proof.
  split; vm_compute; intros H; discriminate H.
Qed.

(** ** Absent against null in a patch *)

Lemma updated_record_actual_hours_kept (stored : TaskData) (p : TaskUpdate)
  (c : nat -> datetime) :
  status (updated_record stored p c) <> Some COMPLETED
  \/ truthy_float (merge_field (tu_actual_hours p) (actual_hours stored)) = true ->
  actual_hours (updated_record stored p c)
  = merge_field (tu_actual_hours p) (actual_hours stored).
Proof.
  unfold updated_record. intros H.
  destruct (rules_result_frame (dict_update stored (defaulted_patch stored p)) c)
    as (_ & _ & _ & _ & _ & Fs & _).
  rewrite Fs in H. rewrite rules_result_actual_hours.
  destruct (merged_fields stored p) as (_ & _ & _ & Fs' & _).
  rewrite Fs' in *. clear Fs Fs'.
  unfold defaulted_patch.
  destruct (status_is (attr (tu_status p)) COMPLETED
            && negb (status_is (status stored) COMPLETED)
            && negb (truthy_float (attr (tu_actual_hours p)))
            && negb (truthy_float (actual_hours stored))) eqn:C.
  - exfalso.
    apply andb_true_iff in C. destruct C as [C Ca0].
    apply andb_true_iff in C. destruct C as [C Cpa].
    apply andb_true_iff in C. destruct C as [Cps _].
    apply negb_true_iff in Ca0, Cpa.
    destruct H as [H | H].
    + apply H. destruct (tu_status p) as [|[[]|]]; cbn in Cps; try discriminate.
      reflexivity.
    + destruct (tu_actual_hours p) as [|v]; cbn [merge_field attr] in *; congruence.
  - cbn [dict_update actual_hours]. destruct H as [H | H].
    + apply status_is_completed_false in H. rewrite H. reflexivity.
    + rewrite H. cbn [negb]. rewrite andb_false_r. reflexivity.
Qed.

(** C10: after an update that passes the transition guard, a field the
    patch sets to null is null in the stored record and a field the patch
    leaves out keeps its stored value; for the due date and the hours this
    holds up to the derivation rules (an urgent task without due date gets
    one, a completed task without hours gets its estimate). *)
Theorem C10_null_clears_absent_keeps
  (task_id : string) (p : TaskUpdate) (w : World) (stored : TaskData)
  (Hstored : dict_get task_id (tasks_db w) = Some stored)
  (Hguard : transition_refused stored p = false) :
  exists r,
    dict_get task_id (tasks_db (snd (update_task task_id p w))) = Some r
    /\ (tu_description p = Supplied None -> description r = None)
    /\ (tu_description p = Unset -> description r = description stored)
    /\ (tu_estimated_hours p = Supplied None -> estimated_hours r = None)
    /\ (tu_estimated_hours p = Unset -> estimated_hours r = estimated_hours stored)
    /\ (tu_due_date p = Supplied None ->
        due_date r = if priority_is (priority r) URGENT
                     then Some (clock w 0%nat + timedelta 1) else None)
    /\ (tu_due_date p = Unset ->
        due_date r = match due_date stored with
                     | Some due => Some due
                     | None => if priority_is (priority r) URGENT
                               then Some (clock w 0%nat + timedelta 1) else None
                     end)
    /\ (tu_actual_hours p = Supplied None -> status r <> Some COMPLETED ->
        actual_hours r = None)
    /\ (tu_actual_hours p = Unset ->
        status r <> Some COMPLETED \/ truthy_float (actual_hours stored) = true ->
        actual_hours r = actual_hours stored)
    /\ (tu_title p = Supplied None -> title r = None)
    /\ (tu_title p = Unset -> title r = title stored)
    /\ (tu_priority p = Supplied None -> priority r = None)
    /\ (tu_priority p = Unset -> priority r = priority stored)
    /\ (tu_status p = Supplied None -> status r = None)
    /\ (tu_status p = Unset -> status r = status stored).
Proof.
  destruct (update_task_run task_id p w stored Hstored Hguard) as (w' & Hrun & Hdb).
  rewrite Hrun. cbn [snd]. rewrite Hdb. eexists.
  split; [apply dict_get_set_same|].
  pose proof (updated_record_actual_hours_kept stored p (clock w)) as Ha.
  unfold updated_record in *.
  set (m := dict_update stored (defaulted_patch stored p)) in *.
  destruct (rules_result_frame m (clock w)) as (Ft & Fd & Fp & Fe & _ & Fs & _).
  destruct (merged_fields stored p) as (Mt & Md & Mp & Ms & Me & Mdue).
  fold m in Mt, Md, Mp, Ms, Me, Mdue.
  assert (Hdue : due_date (rules_result m (clock w))
                 = match merge_field (tu_due_date p) (due_date stored) with
                   | Some due => Some due
                   | None => if priority_is (priority (rules_result m (clock w))) URGENT
                             then Some (clock w 0%nat + timedelta 1) else None
                   end).
  { rewrite rules_result_due_date, Fp. unfold lacks_urgent_due_date.
    rewrite Mdue. destruct (merge_field (tu_due_date p) (due_date stored));
      cbn [truthy_datetime negb]; [now rewrite andb_false_r|].
    rewrite andb_true_r. destruct (priority_is (priority m) URGENT); reflexivity. }
  rewrite Ft, Fd, Fp, Fe, Fs, Mt, Md, Mp, Ms, Me in *.
  repeat split; intros E; rewrite ?E in *; cbn [merge_field] in *;
    try reflexivity; try exact Hdue.
  - intros H. apply Ha. left. exact H.
  - intros H. apply Ha. exact H.
Qed.

(** ** Runs on sample data *)

Lemma C1_witness_no_estimate_no_hours :
  (exists r,
     dict_get "a"
       (tasks_db (snd (update_task "a" (patch_status COMPLETED)
                         (sample_world [("a", sample_task "a" LOW PENDING None 5)]))))
     = Some r
     /\ status r = Some COMPLETED
     /\ actual_hours r = None
     /\ (@None float = None -> actual_hours r <> Some 1%Q))
  /\ (forall d w0, status d = Some COMPLETED -> actual_hours d = None ->
        exists r w',
          apply_business_rules d w0 = (Ok r, w')
          /\ actual_hours r = estimated_hours d).
Proof.
  apply (C1_completion_default_hours "a" (patch_status COMPLETED)
           (sample_world [("a", sample_task "a" LOW PENDING None 5)])
           (sample_task "a" LOW PENDING None 5)).
  - reflexivity.
  - discriminate.
  - reflexivity.
  - reflexivity.
  - reflexivity.
  - reflexivity.
Defined.

(** The task is created without estimate and then completed: the response
    carries no hours. *)
Example create_then_complete_without_estimate :
  fst (put_task "a" (patch_status COMPLETED)
         (snd (post_tasks (sample_create MEDIUM None) (sample_world []))))
  = Ok (mkTask "report" None MEDIUM None None "a" COMPLETED 1000 1003 None false).
Proof. vm_compute. reflexivity. Qed.

Lemma C3_witness_pending_overdue_completed_not :
  fst (read_task "a" (sample_world sample_store))
  = Ok (mkTask "report" None LOW None (Some 10) "a" PENDING 5 5 None true)
  /\ fst (read_task "c" (sample_world sample_store))
     = Ok (mkTask "report" None HIGH None (Some 10) "c" COMPLETED 7 7 None false).
Proof.
  destruct C3_is_overdue_recomputed_on_read_and_write
    as (_ & _ & _ & _ & _ & H).
  split.
  - refine (proj1 (H "a" (sample_world sample_store)
                     (sample_task "a" LOW PENDING (Some 10) 5) _ 10
                     eq_refl eq_refl eq_refl _) eq_refl).
    vm_compute. reflexivity.
  - refine (proj2 (H "c" (sample_world sample_store)
                     (sample_task "c" HIGH COMPLETED (Some 10) 7) _ 10
                     eq_refl eq_refl eq_refl _) eq_refl).
    vm_compute. reflexivity.
Defined.


(** The urgent task comes first, then the newest of the others; the limit
    cuts the oldest. *)
Example sample_listing :
  fst (get_tasks None None false (Some 2) (sample_world sample_store))
  = Ok [mkTask "report" None URGENT None None "b" IN_PROGRESS 6 6 None false;
        mkTask "report" None HIGH None (Some 10) "c" COMPLETED 7 7 None false].
Proof. vm_compute. reflexivity. Qed.

Example sample_listing_urgent_only :
  fst (get_tasks None (Some URGENT) false None (sample_world sample_store))
  = Ok [mkTask "report" None URGENT None None "b" IN_PROGRESS 6 6 None false].
Proof. vm_compute. reflexivity. Qed.

Lemma C5_witness_urgent_create :
  exists t,
    fst (post_tasks (sample_create URGENT None) (sample_world [])) = Ok t
    /\ t_due_date t = Some (1002 + timedelta 1)
    /\ t_is_overdue t = false.
Proof.
  destruct C5_urgent_without_due_date_gets_tomorrow as (_ & H & _).
  destruct (H (sample_create URGENT None) (sample_world [])
              eq_refl eq_refl eq_refl eq_refl eq_refl) as (t & H1 & H2 & H3).
  exists t. split; [exact H1|]. split; [exact H2|].
  apply H3. vm_compute. discriminate.
Defined.

Lemma C6_witness_past_rejected_future_accepted :
  (fst (post_tasks (sample_create LOW (Some 1000)) (sample_world []))
   = Raise RequestValidationError
   /\ tasks_db (snd (post_tasks (sample_create LOW (Some 1000)) (sample_world [])))
      = [])
  /\ exists t,
       fst (post_tasks (sample_create LOW (Some 1001)) (sample_world [])) = Ok t
       /\ t_due_date t = Some 1001.
Proof.
  destruct C6_supplied_due_date_must_be_in_the_future as (H1 & H2 & _).
  split.
  - apply (H1 (sample_create LOW (Some 1000)) (sample_world []) 1000 eq_refl).
    vm_compute. discriminate.
  - destruct (H2 (sample_create LOW (Some 1001)) (sample_world []) 1001 eq_refl)
      as (t & Ht & Hd & _); try reflexivity.
    exists t. split; assumption.
Defined.

Lemma C8_witness_get_and_list :
  (fst (read_task "a" (sample_world sample_store))
   = Ok (mkTask "report" None LOW None (Some 10) "a" PENDING 5 5 None true)
   /\ tasks_db (snd (read_task "a" (sample_world sample_store))) = sample_store)
  /\ Forall2 (fun old new =>
                fst new = fst old
                /\ exists m, snd new
                     = set_is_overdue (overdue_atb (snd old) (sample_clock m)) (snd old))
       sample_store
       (tasks_db (snd (read_all_tasks None None false 100 (sample_world sample_store)))).
Proof.
  destruct (C8_get_copies_list_rewrites_stored_flags "a" (sample_world sample_store)
              (sample_task "a" LOW PENDING (Some 10) 5)
              (mkTask "report" None LOW None (Some 10) "a" PENDING 5 5 None false)
              eq_refl eq_refl) as [H1 H2].
  split; [exact H1|].
  apply (H2 None None false 100).
  repeat (constructor; [eexists; reflexivity|]). constructor.
Defined.

(** The stored flag of the overdue task is [false]; it still is after a
    read by id and it is [true] after a listing. *)
Example stored_flag_after_get_and_after_list :
  option_map is_overdue (dict_get "a" sample_store) = Some false
  /\ option_map is_overdue
       (dict_get "a" (tasks_db (snd (read_task "a" (sample_world sample_store)))))
     = Some false
  /\ option_map is_overdue
       (dict_get "a"
          (tasks_db (snd (read_all_tasks None None false 100
                            (sample_world sample_store)))))
     = Some true.
Proof. vm_compute. repeat split. Qed.

Lemma C9_witness_zero_hours_replaced :
  actual_hours_ok (Some 0%Q) = true
  /\ exists r,
       dict_get "a"
         (tasks_db (snd (update_task "a" patch_complete_zero_hours
                           (sample_world [("a", sample_task_with_estimate)]))))
       = Some r
       /\ status r = Some COMPLETED
       /\ actual_hours r = Some 5%Q.
Proof.
  destruct (C9_zero_hours_are_replaced_by_an_estimate "a" patch_complete_zero_hours
              (sample_world [("a", sample_task_with_estimate)])
              sample_task_with_estimate) as (H0 & r & H1 & H2 & _ & H4 & _).
  - reflexivity.
  - reflexivity.
  - left. exists 0%Q. split; reflexivity.
  - split; [exact H0|]. exists r. split; [exact H1|]. split; [exact H2|].
    apply H4.
    + discriminate.
    + reflexivity.
    + reflexivity.
    + intros H. discriminate H.
Defined.

(** The same completion on a task that was completed before, with three
    hours: the zero of the patch is replaced by the estimate as well. *)
Example zero_hours_on_a_completed_task :
  option_map actual_hours
    (dict_get "a"
       (tasks_db (snd (update_task "a" patch_complete_zero_hours
                         (sample_world
                            [("a", set_status_completed sample_task_with_hours)])))))
  = Some (Some 5%Q).
Proof. vm_compute. reflexivity. Qed.

Lemma C10_witness_null_description_and_due_date :
  exists r,
    dict_get "a"
      (tasks_db (snd (update_task "a" patch_nulls (sample_world sample_store))))
    = Some r
    /\ description r = None
    /\ estimated_hours r = None
    /\ due_date r = (if priority_is (priority r) URGENT
                     then Some (1000 + timedelta 1) else None)
    /\ title r = Some "report".
Proof.
  destruct (C10_null_clears_absent_keeps "a" patch_nulls (sample_world sample_store)
              (sample_task "a" LOW PENDING (Some 10) 5) eq_refl eq_refl)
    as (r & H & Hd & _ & _ & He & Hdue & _ & _ & _ & _ & Ht & _).
  exists r. split; [exact H|]. split; [apply Hd; reflexivity|].
  split; [apply He; reflexivity|]. split; [apply Hdue; reflexivity|].
  apply Ht. reflexivity.
Defined.

Example update_with_nulls :
  fst (update_task "a" patch_nulls (sample_world sample_store))
  = Ok (mkTask "report" None LOW None None "a" PENDING 5 1000 None false).
Proof. vm_compute. reflexivity. Qed.

(** A patch may set the title to null: [update_task] stores the record and
    only then fails to build the response; from then on a listing that
    reaches the record fails too.  Such a record does not conform to the
    task model, which the statements about listings assume. *)
Example null_title_is_stored_and_breaks_listing :
  fst (put_task "a" patch_null_title (sample_world sample_store))
  = Raise ModelValidationError
  /\ option_map title
       (dict_get "a"
          (tasks_db (snd (put_task "a" patch_null_title (sample_world sample_store)))))
     = Some None
  /\ fst (get_tasks None None false None
            (snd (put_task "a" patch_null_title (sample_world sample_store))))
     = Raise ModelValidationError.
Proof. vm_compute. repeat split. Qed.

(** * Further properties of the handlers *)

(** ** The dictionary *)

Lemma dict_get_In (k : string) (v : TaskData) (db : list (string * TaskData)) :
  dict_get k db = Some v -> In (k, v) db.
Proof.
  induction db as [|[k' v'] rest IH]; cbn; [discriminate|].
  destruct (String.eqb k k') eqn:E.
  - apply String.eqb_eq in E. subst k'. intros H. injection H as ->. now left.
  - intros H. right. apply IH, H.
Qed.

Lemma dict_get_None (k : string) (db : list (string * TaskData)) :
  dict_get k db = None <-> ~ In k (keys db).
Proof.
  induction db as [|[k' v'] rest IH]; cbn.
  - split; [intros _ [] | reflexivity].
  - destruct (String.eqb k k') eqn:E.
    + apply String.eqb_eq in E. subst k'. split; [discriminate|].
      intros H. elim H. now left.
    + apply String.eqb_neq in E. rewrite IH. split.
      * intros H [H1 | H1]; [congruence | contradiction].
      * intros H H1. apply H. now right.
Qed.

Lemma dict_get_set_other (k k0 : string) (v : TaskData) (db : list (string * TaskData)) :
  k0 <> k -> dict_get k0 (dict_set k v db) = dict_get k0 db.
Proof.
  intros Hne. induction db as [|[k' v'] rest IH]; cbn.
  - destruct (String.eqb k0 k) eqn:E; [|reflexivity].
    apply String.eqb_eq in E. contradiction.
  - destruct (String.eqb k k') eqn:E; cbn.
    + apply String.eqb_eq in E. subst k'.
      destruct (String.eqb k0 k) eqn:E0; [|reflexivity].
      apply String.eqb_eq in E0. contradiction.
    + destruct (String.eqb k0 k'); [reflexivity | exact IH].
Qed.

Lemma dict_set_present (k : string) (v v0 : TaskData) (db : list (string * TaskData)) :
  dict_get k db = Some v0 -> keys (dict_set k v db) = keys db.
Proof.
  induction db as [|[k' v'] rest IH]; cbn; [discriminate|].
  destruct (String.eqb k k') eqn:E; cbn; [reflexivity|].
  intros H. f_equal. apply IH, H.
Qed.

Lemma dict_set_absent (k : string) (v : TaskData) (db : list (string * TaskData)) :
  dict_get k db = None -> dict_set k v db = (db ++ [(k, v)])%list.
Proof.
  induction db as [|[k' v'] rest IH]; cbn; [reflexivity|].
  destruct (String.eqb k k') eqn:E; [discriminate|].
  intros H. f_equal. apply IH, H.
Qed.

Lemma dict_set_Forall (P : string * TaskData -> Prop) (k : string) (v : TaskData)
  (db : list (string * TaskData)) :
  Forall P db -> P (k, v) -> Forall P (dict_set k v db).
Proof.
  intros H Hv. induction H as [|[k' v'] rest Hx Hrest IH]; cbn.
  - constructor; [exact Hv | constructor].
  - destruct (String.eqb k k') eqn:E.
    + apply String.eqb_eq in E. subst k'. constructor; assumption.
    + constructor; assumption.
Qed.

Lemma dict_del_other (k k0 : string) (db : list (string * TaskData)) :
  k0 <> k -> dict_get k0 (dict_del k db) = dict_get k0 db.
Proof.
  intros Hne. induction db as [|[k' v'] rest IH]; cbn; [reflexivity|].
  destruct (String.eqb k k') eqn:E; cbn.
  - apply String.eqb_eq in E. subst k'.
    destruct (String.eqb k0 k) eqn:E0; [|reflexivity].
    apply String.eqb_eq in E0. contradiction.
  - destruct (String.eqb k0 k'); [reflexivity | exact IH].
Qed.

Lemma dict_del_same (k : string) (db : list (string * TaskData)) :
  NoDup (keys db) -> dict_get k (dict_del k db) = None.
Proof.
  induction db as [|[k' v'] rest IH]; cbn; [reflexivity|].
  intros H. inversion H as [|x l Hnotin Hnd]; subst.
  destruct (String.eqb k k') eqn:E; cbn.
  - apply String.eqb_eq in E. subst k'. apply dict_get_None, Hnotin.
  - rewrite E. apply IH, Hnd.
Qed.

Lemma dict_del_length (k : string) (v : TaskData) (db : list (string * TaskData)) :
  dict_get k db = Some v -> S (List.length (dict_del k db)) = List.length db.
Proof.
  induction db as [|[k' v'] rest IH]; cbn; [discriminate|].
  destruct (String.eqb k k'); cbn; [reflexivity|].
  intros H. f_equal. apply IH, H.
Qed.

Lemma dict_del_keys_incl (k : string) (db : list (string * TaskData)) :
  forall x, In x (keys (dict_del k db)) -> In x (keys db).
Proof.
  induction db as [|[k' v'] rest IH]; cbn; [tauto|].
  destruct (String.eqb k k'); cbn; intros x H; [now right|].
  destruct H as [H | H]; [now left | right; apply IH, H].
Qed.

Lemma dict_del_NoDup (k : string) (db : list (string * TaskData)) :
  NoDup (keys db) -> NoDup (keys (dict_del k db)).
Proof.
  induction db as [|[k' v'] rest IH]; cbn; [auto|].
  intros H. inversion H as [|x l Hnotin Hnd]; subst.
  destruct (String.eqb k k'); cbn; [exact Hnd|].
  constructor; [|apply IH, Hnd].
  intros Hin. apply Hnotin. apply (dict_del_keys_incl k rest), Hin.
Qed.

Lemma dict_del_Forall (P : string * TaskData -> Prop) (k : string)
  (db : list (string * TaskData)) :
  Forall P db -> Forall P (dict_del k db).
Proof.
  induction 1 as [|[k' v'] rest Hx Hrest IH]; cbn; [constructor|].
  destruct (String.eqb k k'); [exact Hrest | constructor; assumption].
Qed.

Lemma dict_set_NoDup (k : string) (v : TaskData) (db : list (string * TaskData)) :
  NoDup (keys db) -> NoDup (keys (dict_set k v db)).
Proof.
  intros H. destruct (dict_get k db) as [v0|] eqn:E.
  - rewrite (dict_set_present k v v0 db E). exact H.
  - rewrite (dict_set_absent k v db E). unfold keys. rewrite map_app. cbn.
    apply dict_get_None in E.
    clear -H E. unfold keys in *. induction (map fst db) as [|x l IH]; cbn.
    + constructor; [intros [] | constructor].
    + inversion H as [|y l' Hn Hnd]; subst. constructor.
      * intros Hin. apply in_app_or in Hin. destruct Hin as [Hin | [<- | []]].
        -- contradiction.
        -- apply E. now left.
      * apply IH; [exact Hnd|]. intros Hin. apply E. now right.
Qed.

(** ** Unknown identifiers *)

(** X1: a read, an update or a delete of an identifier that is not in the
    store raises the not-found error and leaves the world as it was; an
    update is refused so whatever the patch. *)
Theorem missing_id_is_not_found
  (task_id : string) (p : TaskUpdate) (w : World)
  (Hmissing : dict_get task_id (tasks_db w) = None) :
  read_task task_id w = (Raise NotFoundError, w)
  /\ update_task task_id p w = (Raise NotFoundError, w)
  /\ delete_task task_id w = (Raise NotFoundError, w).
Proof.
  unfold read_task, update_task, delete_task, bind, get_db.
  rewrite Hmissing. repeat split.
Qed.

Lemma missing_id_is_not_found_witness :
  read_task "z" (sample_world sample_store)
  = (Raise NotFoundError, sample_world sample_store)
  /\ update_task "z" patch_rename (sample_world sample_store)
     = (Raise NotFoundError, sample_world sample_store)
  /\ delete_task "z" (sample_world sample_store)
     = (Raise NotFoundError, sample_world sample_store).
Proof.
  apply (missing_id_is_not_found "z" patch_rename (sample_world sample_store)).
  reflexivity.
Defined.

(** ** Deleting one task *)

Lemma delete_task_run (task_id : string) (w : World) (stored : TaskData) :
  dict_get task_id (tasks_db w) = Some stored ->
  delete_task task_id w
  = if status_is (status stored) IN_PROGRESS
    then (Raise (ConflictError "Cannot delete task in progress"), w)
    else (Ok "Task deleted successfully",
          mkWorld (dict_del task_id (tasks_db w)) (clock w) (uuids w)).
Proof.
  intros H. unfold delete_task, bind, get_db. rewrite H.
  destruct (status_is (status stored) IN_PROGRESS); reflexivity.
Qed.

(** X2: deleting a stored task that is in progress raises the conflict
    error and changes nothing; deleting any other stored task succeeds,
    after which the identifier is unknown, the store is one record shorter
    and every other record is still there unchanged. *)
Theorem delete_task_removes_exactly_one
  (task_id : string) (w : World) (stored : TaskData)
  (Hdict : NoDup (keys (tasks_db w)))
  (Hstored : dict_get task_id (tasks_db w) = Some stored) :
  (status stored = Some IN_PROGRESS ->
     delete_task task_id w
     = (Raise (ConflictError "Cannot delete task in progress"), w))
  /\ (status stored <> Some IN_PROGRESS ->
      fst (delete_task task_id w) = Ok "Task deleted successfully"
      /\ dict_get task_id (tasks_db (snd (delete_task task_id w))) = None
      /\ S (List.length (tasks_db (snd (delete_task task_id w))))
         = List.length (tasks_db w)
      /\ forall k, k <> task_id ->
           dict_get k (tasks_db (snd (delete_task task_id w)))
           = dict_get k (tasks_db w)).
Proof.
  rewrite (delete_task_run task_id w stored Hstored). split.
  - intros ->. reflexivity.
  - intros Hst.
    assert (E : status_is (status stored) IN_PROGRESS = false).
    { destruct (status stored) as [[]|]; try reflexivity. now elim Hst. }
    rewrite E. cbn [fst snd tasks_db]. repeat split.
    + apply dict_del_same, Hdict.
    + apply (dict_del_length task_id stored), Hstored.
    + intros k Hk. apply dict_del_other, Hk.
Qed.

Lemma delete_task_removes_exactly_one_witness :
  delete_task "b" (sample_world sample_store)
  = (Raise (ConflictError "Cannot delete task in progress"),
     sample_world sample_store)
  /\ fst (delete_task "a" (sample_world sample_store))
     = Ok "Task deleted successfully"
  /\ dict_get "a" (tasks_db (snd (delete_task "a" (sample_world sample_store))))
     = None.
Proof.
  split.
  - refine (proj1 (delete_task_removes_exactly_one "b" (sample_world sample_store)
                     (sample_task "b" URGENT IN_PROGRESS None 6) _ eq_refl) eq_refl).
    repeat constructor; cbn; intuition discriminate.
  - destruct (proj2 (delete_task_removes_exactly_one "a" (sample_world sample_store)
                       (sample_task "a" LOW PENDING (Some 10) 5)
                       ltac:(repeat constructor; cbn; intuition discriminate)
                       eq_refl)) as (H1 & H2 & _).
    + discriminate.
    + split; assumption.
Defined.

(** ** What an update leaves alone *)

Lemma missing_id_is_not_found_aux (task_id : string) (p : TaskUpdate) (w : World) :
  dict_get task_id (tasks_db w) = None ->
  update_task task_id p w = (Raise NotFoundError, w).
Proof.
  intros H. unfold update_task, bind, get_db. rewrite H. reflexivity.
Qed.

Lemma update_task_refused (task_id : string) (p : TaskUpdate) (w : World)
  (stored : TaskData) :
  dict_get task_id (tasks_db w) = Some stored ->
  transition_refused stored p = true ->
  update_task task_id p w = (Raise InvalidTransitionError, w).
Proof.
  intros Hget Hguard. unfold update_task, bind, get_db. rewrite Hget.
  unfold transition_refused in Hguard. rewrite Hguard. reflexivity.
Qed.

Lemma updated_record_id (stored : TaskData) (p : TaskUpdate) (c : nat -> datetime) :
  id (updated_record stored p c) = id stored
  /\ created_at (updated_record stored p c) = created_at stored.
Proof.
  unfold updated_record.
  destruct (rules_result_frame (dict_update stored (defaulted_patch stored p)) c)
    as (_ & _ & _ & _ & Fi & _ & Fc).
  rewrite Fi, Fc. unfold defaulted_patch. destruct (_ && _ && _ && _); split; reflexivity.
Qed.

(** X3: an update, whether it succeeds or raises, keeps the keys of the
    store and their order, leaves every other record as it was, and never
    changes the [id] or the creation time of the record it is aimed at. *)
Theorem update_task_keeps_keys_other_records_and_identity
  (task_id : string) (p : TaskUpdate) (w : World) :
  keys (tasks_db (snd (update_task task_id p w))) = keys (tasks_db w)
  /\ (forall k, k <> task_id ->
        dict_get k (tasks_db (snd (update_task task_id p w)))
        = dict_get k (tasks_db w))
  /\ (forall stored, dict_get task_id (tasks_db w) = Some stored ->
        exists r,
          dict_get task_id (tasks_db (snd (update_task task_id p w))) = Some r
          /\ id r = id stored /\ created_at r = created_at stored).
Proof.
  destruct (dict_get task_id (tasks_db w)) as [stored|] eqn:Hget.
  - destruct (transition_refused stored p) eqn:Hguard.
    + rewrite (update_task_refused task_id p w stored Hget Hguard). cbn [snd].
      repeat split. intros s E. injection E as <-. exists stored. auto.
    + destruct (update_task_run task_id p w stored Hget Hguard) as (w' & Hrun & Hdb).
      rewrite Hrun. cbn [snd]. rewrite Hdb. repeat split.
      * apply (dict_set_present _ _ stored), Hget.
      * intros k Hk. apply dict_get_set_other, Hk.
      * intros s E. injection E as <-. eexists.
        split; [apply dict_get_set_same | apply updated_record_id].
  - rewrite (missing_id_is_not_found_aux task_id p w Hget). cbn [snd]. repeat split. intros s Hs. discriminate.
Qed.

Lemma update_task_keeps_keys_witness :
  keys (tasks_db (snd (update_task "b" patch_rename (sample_world sample_store))))
  = ["a"; "b"; "c"]
  /\ exists r,
       dict_get "b"
         (tasks_db (snd (update_task "b" patch_rename (sample_world sample_store))))
       = Some r
       /\ id r = "b" /\ created_at r = 6.
Proof.
  destruct (update_task_keeps_keys_other_records_and_identity "b" patch_rename
              (sample_world sample_store)) as (H1 & _ & H3).
  split; [exact H1|].
  apply (H3 (sample_task "b" URGENT IN_PROGRESS None 6)). reflexivity.
Defined.

(** ** Status transitions *)

(** X4: a completed task stays completed: whatever the patch, and whether
    the update returns or raises, the record stored under the identifier
    afterwards still has status completed. *)
Theorem completed_status_is_final
  (task_id : string) (p : TaskUpdate) (w : World) (stored : TaskData)
  (Hstored : dict_get task_id (tasks_db w) = Some stored)
  (Hcompleted : status stored = Some COMPLETED) :
  exists r,
    dict_get task_id (tasks_db (snd (update_task task_id p w))) = Some r
    /\ status r = Some COMPLETED.
Proof.
  destruct (transition_refused stored p) eqn:Hguard.
  - rewrite (update_task_refused task_id p w stored Hstored Hguard).
    exists stored. split; assumption.
  - destruct (update_task_run task_id p w stored Hstored Hguard) as (w' & Hrun & Hdb).
    rewrite Hrun. cbn [snd]. rewrite Hdb. eexists.
    split; [apply dict_get_set_same|].
    unfold updated_record.
    destruct (rules_result_frame (dict_update stored (defaulted_patch stored p))
                (clock w)) as (_ & _ & _ & _ & _ & Fs & _).
    rewrite Fs. destruct (merged_fields stored p) as (_ & _ & _ & Ms & _).
    rewrite Ms. unfold transition_refused in Hguard. rewrite Hcompleted in Hguard.
    cbn [status_is TaskStatus_eqb andb] in Hguard. apply negb_false_iff in Hguard.
    destruct (tu_status p) as [|[[]|]]; cbn in Hguard; try discriminate.
    reflexivity.
Qed.

Lemma completed_status_is_final_witness :
  exists r,
    dict_get "c"
      (tasks_db (snd (update_task "c" (patch_status COMPLETED)
                        (sample_world sample_store))))
    = Some r
    /\ status r = Some COMPLETED.
Proof.
  apply (completed_status_is_final "c" (patch_status COMPLETED)
           (sample_world sample_store)
           (sample_task "c" HIGH COMPLETED (Some 10) 7)); reflexivity.
Defined.

(** X5: a task in progress cannot be deleted, but once an update has given
    it another status the delete succeeds and the identifier is gone. *)
Theorem in_progress_task_deletable_after_transition
  (task_id : string) (p : TaskUpdate) (w : World) (stored : TaskData)
  (s : TaskStatus)
  (Hdict : NoDup (keys (tasks_db w)))
  (Hstored : dict_get task_id (tasks_db w) = Some stored)
  (Hprogress : status stored = Some IN_PROGRESS)
  (Hpatch : attr (tu_status p) = Some s)
  (Hother : s <> IN_PROGRESS) :
  fst (delete_task task_id w) = Raise (ConflictError "Cannot delete task in progress")
  /\ fst (delete_task task_id (snd (update_task task_id p w)))
     = Ok "Task deleted successfully"
  /\ dict_get task_id
       (tasks_db (snd (delete_task task_id (snd (update_task task_id p w)))))
     = None.
Proof.
  split.
  - rewrite (delete_task_run task_id w stored Hstored), Hprogress. reflexivity.
  - assert (Hguard : transition_refused stored p = false).
    { unfold transition_refused. rewrite Hprogress. reflexivity. }
    destruct (update_task_run task_id p w stored Hstored Hguard) as (w' & Hrun & Hdb).
    rewrite Hrun. cbn [snd].
    assert (Hget : dict_get task_id (tasks_db w')
                   = Some (updated_record stored p (clock w))).
    { rewrite Hdb. apply dict_get_set_same. }
    assert (Hst : status (updated_record stored p (clock w)) = Some s).
    { unfold updated_record.
      destruct (rules_result_frame (dict_update stored (defaulted_patch stored p))
                  (clock w)) as (_ & _ & _ & _ & _ & Fs & _).
      rewrite Fs. destruct (merged_fields stored p) as (_ & _ & _ & Ms & _).
      rewrite Ms, (attr_Some _ _ Hpatch). reflexivity. }
    rewrite (delete_task_run task_id w' _ Hget), Hst.
    assert (E : status_is (Some s) IN_PROGRESS = false).
    { destruct s; try reflexivity. now elim Hother. }
    rewrite E. cbn [fst snd tasks_db]. split; [reflexivity|].
    apply dict_del_same. rewrite Hdb. apply dict_set_NoDup, Hdict.
Qed.

Lemma in_progress_task_deletable_after_transition_witness :
  fst (delete_task "b" (sample_world sample_store))
  = Raise (ConflictError "Cannot delete task in progress")
  /\ fst (delete_task "b"
            (snd (update_task "b" (patch_status CANCELLED) (sample_world sample_store))))
     = Ok "Task deleted successfully"
  /\ dict_get "b"
       (tasks_db (snd (delete_task "b"
          (snd (update_task "b" (patch_status CANCELLED) (sample_world sample_store))))))
     = None.
Proof.
  apply (in_progress_task_deletable_after_transition "b" (patch_status CANCELLED)
           (sample_world sample_store) (sample_task "b" URGENT IN_PROGRESS None 6)
           CANCELLED).
  - repeat constructor; cbn; intuition discriminate.
  - reflexivity.
  - reflexivity.
  - reflexivity.
  - discriminate.
Defined.

(** ** Updates that break or keep the response model *)

Lemma updated_record_required_fields (stored : TaskData) (p : TaskUpdate)
  (c : nat -> datetime) :
  title (updated_record stored p c) = merge_field (tu_title p) (title stored)
  /\ description (updated_record stored p c)
     = merge_field (tu_description p) (description stored)
  /\ priority (updated_record stored p c)
     = merge_field (tu_priority p) (priority stored)
  /\ estimated_hours (updated_record stored p c)
     = merge_field (tu_estimated_hours p) (estimated_hours stored)
  /\ status (updated_record stored p c) = merge_field (tu_status p) (status stored).
Proof.
  unfold updated_record.
  destruct (rules_result_frame (dict_update stored (defaulted_patch stored p)) c)
    as (Ft & Fd & Fp & Fe & _ & Fs & _).
  destruct (merged_fields stored p) as (Mt & Md & Mp & Ms & Me & _).
  rewrite Ft, Fd, Fp, Fe, Fs, Mt, Md, Mp, Ms, Me. repeat split.
Qed.

(** X6: an update whose patch sets the title, the priority or the status
    to null, and which passes the transition guard, raises while building
    the response, yet the record with the null field has already replaced
    the stored one. *)
Theorem update_with_null_required_field_is_stored_then_raises
  (task_id : string) (p : TaskUpdate) (w : World) (stored : TaskData)
  (Hstored : dict_get task_id (tasks_db w) = Some stored)
  (Hguard : transition_refused stored p = false)
  (Hnull : tu_title p = Supplied None \/ tu_priority p = Supplied None
           \/ tu_status p = Supplied None) :
  fst (update_task task_id p w) = Raise ModelValidationError
  /\ exists r,
       dict_get task_id (tasks_db (snd (update_task task_id p w))) = Some r
       /\ (title r = None \/ priority r = None \/ status r = None)
       /\ Task_init r = Raise ModelValidationError.
Proof.
  destruct (update_task_run task_id p w stored Hstored Hguard) as (w' & Hrun & Hdb).
  rewrite Hrun. cbn [fst snd]. rewrite Hdb.
  destruct (updated_record_required_fields stored p (clock w))
    as (Ft & _ & Fp & _ & Fs).
  assert (Hr : title (updated_record stored p (clock w)) = None
               \/ priority (updated_record stored p (clock w)) = None
               \/ status (updated_record stored p (clock w)) = None).
  { destruct Hnull as [E | [E | E]]; rewrite E in *; cbn [merge_field] in *; auto. }
  assert (Hinit : Task_init (updated_record stored p (clock w))
                  = Raise ModelValidationError).
  { unfold Task_init.
    destruct (title (updated_record stored p (clock w))) as [t|];
      [|reflexivity].
    destruct (priority (updated_record stored p (clock w))) as [q|];
      [|reflexivity].
    destruct (status (updated_record stored p (clock w))) as [s|];
      [|reflexivity].
    destruct Hr as [E | [E | E]]; discriminate. }
  split; [exact Hinit|]. eexists.
  split; [apply dict_get_set_same|]. split; assumption.
Qed.

Lemma update_with_null_required_field_witness :
  fst (update_task "a" patch_null_title (sample_world sample_store))
  = Raise ModelValidationError
  /\ exists r,
       dict_get "a"
         (tasks_db (snd (update_task "a" patch_null_title (sample_world sample_store))))
       = Some r
       /\ (title r = None \/ priority r = None \/ status r = None)
       /\ Task_init r = Raise ModelValidationError.
Proof.
  apply (update_with_null_required_field_is_stored_then_raises "a" patch_null_title
           (sample_world sample_store) (sample_task "a" LOW PENDING (Some 10) 5)).
  - reflexivity.
  - reflexivity.
  - left. reflexivity.
Defined.

Lemma Task_init_bounds (d : TaskData) (t : Task) :
  Task_init d = Ok t ->
  title_ok (t_title t) = true /\ description_ok (description d) = true
  /\ estimated_hours_ok (estimated_hours d) = true.
Proof.
  unfold Task_init.
  destruct (title d), (priority d), (status d); try discriminate.
  destruct (title_ok s) eqn:E1; [|discriminate].
  destruct (description_ok (description d)) eqn:E2; [|discriminate].
  destruct (estimated_hours_ok (estimated_hours d)) eqn:E3; [|discriminate].
  cbn. intros E. injection E as <-. cbn. auto.
Qed.

Lemma updated_record_conforms (stored : TaskData) (p : TaskUpdate)
  (c : nat -> datetime) :
  conforms stored ->
  patch_title_ok (tu_title p) = true ->
  description_ok (attr (tu_description p)) = true ->
  estimated_hours_ok (attr (tu_estimated_hours p)) = true ->
  keeps_required_fields p ->
  conforms (updated_record stored p c).
Proof.
  intros [t0 Ht0] Htitle Hdescription Hestimate (Nt & Np & Ns).
  destruct (Task_init_fields stored t0 Ht0) as (Ft & _ & Fp & _ & _ & _ & Fs & _).
  destruct (Task_init_bounds stored t0 Ht0) as (Bt & Bd & Be).
  destruct (updated_record_required_fields stored p c) as (Rt & Rd & Rp & Re & Rs).
  assert (Ht : exists ti, title (updated_record stored p c) = Some ti
                          /\ title_ok ti = true).
  { rewrite Rt. destruct (tu_title p) as [|[s|]]; cbn [merge_field].
    - exists (t_title t0). split; assumption.
    - exists s. split; [reflexivity | exact Htitle].
    - now elim Nt. }
  assert (Hp : exists q, priority (updated_record stored p c) = Some q).
  { rewrite Rp. destruct (tu_priority p) as [|[q|]]; cbn [merge_field].
    - eexists. exact Fp.
    - eexists. reflexivity.
    - now elim Np. }
  assert (Hs : exists s, status (updated_record stored p c) = Some s).
  { rewrite Rs. destruct (tu_status p) as [|[s|]]; cbn [merge_field].
    - eexists. exact Fs.
    - eexists. reflexivity.
    - now elim Ns. }
  assert (Hd : description_ok (description (updated_record stored p c)) = true).
  { rewrite Rd. destruct (tu_description p); cbn [merge_field attr] in *; assumption. }
  assert (He : estimated_hours_ok (estimated_hours (updated_record stored p c)) = true).
  { rewrite Re. destruct (tu_estimated_hours p); cbn [merge_field attr] in *; assumption. }
  destruct Ht as (ti & Hti & Hok), Hp as (q & Hq), Hs as (s & Hs).
  eexists. apply (Task_init_ok _ ti q s Hti Hq Hs Hok Hd He).
Qed.

(** X7: on a stored record that conforms to the task model, an update
    that passes the transition guard, whose supplied title, description
    and estimate are within the field bounds and which sets none of title,
    priority and status to null, returns the task, and the record it
    stores conforms again. *)
Theorem valid_update_of_conforming_record_succeeds
  (task_id : string) (p : TaskUpdate) (w : World) (stored : TaskData)
  (Hstored : dict_get task_id (tasks_db w) = Some stored)
  (Hguard : transition_refused stored p = false)
  (Hmodel : conforms stored)
  (Htitle : patch_title_ok (tu_title p) = true)
  (Hdescription : description_ok (attr (tu_description p)) = true)
  (Hestimate : estimated_hours_ok (attr (tu_estimated_hours p)) = true)
  (Hrequired : keeps_required_fields p) :
  exists t r,
    fst (update_task task_id p w) = Ok t
    /\ dict_get task_id (tasks_db (snd (update_task task_id p w))) = Some r
    /\ Task_init r = Ok t
    /\ t_id t = id stored.
Proof.
  destruct (update_task_run task_id p w stored Hstored Hguard) as (w' & Hrun & Hdb).
  rewrite Hrun. cbn [fst snd]. rewrite Hdb.
  destruct (updated_record_conforms stored p (clock w) Hmodel Htitle Hdescription
              Hestimate Hrequired) as [t Hinit].
  exists t. eexists. split; [exact Hinit|]. split; [apply dict_get_set_same|].
  split; [exact Hinit|].
  destruct (Task_init_fields _ _ Hinit) as (_ & _ & _ & _ & _ & Fi & _).
  rewrite <- Fi. apply updated_record_id.
Qed.

Lemma valid_update_of_conforming_record_witness :
  exists t r,
    fst (update_task "a" patch_rename (sample_world sample_store)) = Ok t
    /\ dict_get "a"
         (tasks_db (snd (update_task "a" patch_rename (sample_world sample_store))))
       = Some r
    /\ Task_init r = Ok t
    /\ t_id t = "a".
Proof.
  apply (valid_update_of_conforming_record_succeeds "a" patch_rename
           (sample_world sample_store) (sample_task "a" LOW PENDING (Some 10) 5)).
  - reflexivity.
  - reflexivity.
  - eexists. reflexivity.
  - reflexivity.
  - reflexivity.
  - reflexivity.
  - repeat split; discriminate.
Defined.

(** X8: hours that are supplied and not zero win over the estimate: when
    an update completes a task and its patch carries non-zero hours, these
    are the hours stored; when the patch carries none and non-zero hours
    are stored already, those are kept. *)
Theorem nonzero_hours_survive_completion
  (task_id : string) (p : TaskUpdate) (w : World) (stored : TaskData) (x : float)
  (Hstored : dict_get task_id (tasks_db w) = Some stored)
  (Hstatus : status stored <> Some COMPLETED)
  (Hpatch : attr (tu_status p) = Some COMPLETED)
  (Hhours : tu_actual_hours p = Supplied (Some x)
            \/ (tu_actual_hours p = Unset /\ actual_hours stored = Some x))
  (Hnonzero : ~ x == 0) :
  exists r,
    dict_get task_id (tasks_db (snd (update_task task_id p w))) = Some r
    /\ status r = Some COMPLETED
    /\ actual_hours r = Some x.
Proof.
  destruct (completing_update_stored task_id p w stored Hstored Hstatus Hpatch)
    as (Hget & _ & Hst).
  eexists. split; [exact Hget|]. split; [exact Hst|].
  assert (Hx : truthy_float (Some x) = true).
  { cbn. apply negb_true_iff. destruct (Qeq_bool x 0) eqn:E; [|reflexivity].
    apply Qeq_bool_iff in E. contradiction. }
  rewrite updated_record_actual_hours_kept.
  - destruct Hhours as [-> | [-> ->]]; reflexivity.
  - right. destruct Hhours as [-> | [-> ->]]; exact Hx.
Qed.

Lemma nonzero_hours_survive_completion_witness :
  exists r,
    dict_get "a"
      (tasks_db (snd (update_task "a" patch_complete_three_hours
                        (sample_world [("a", sample_task_with_estimate)]))))
    = Some r
    /\ status r = Some COMPLETED
    /\ actual_hours r = Some 3%Q.
Proof.
  apply (nonzero_hours_survive_completion "a" patch_complete_three_hours
           (sample_world [("a", sample_task_with_estimate)])
           sample_task_with_estimate 3%Q).
  - reflexivity.
  - discriminate.
  - reflexivity.
  - left. reflexivity.
  - intros H. discriminate H.
Defined.

(** ** Requests are validated before the handler runs *)

Lemma post_tasks_run (body : TaskCreate) (w : World) :
  post_tasks body w
  = if create_body_valid body (clock w 0%nat)
    then create_task body (advance (validation_reads (tc_due_date body)) w)
    else (Raise RequestValidationError,
          advance (validation_reads (tc_due_date body)) w).
Proof.
  destruct w as [db c u].
  unfold post_tasks, TaskCreate_validate, due_date_must_be_future,
    create_body_valid, validation_reads, advance.
  cbn [clock tasks_db uuids].
  destruct (tc_due_date body) as [due|]; unfold bind, now, ret, raise;
    cbn [clock tasks_db uuids Nat.add].
  - replace (negb (due <=? c 0%nat)) with (c 0%nat <? due)
      by (rewrite Z.leb_antisym, negb_involutive; reflexivity).
    destruct (_ && _ && _ && _); reflexivity.
  - destruct (_ && _ && _ && _); reflexivity.
Qed.

Lemma put_task_run (task_id : string) (p : TaskUpdate) (w : World) :
  put_task task_id p w
  = if patch_valid p (clock w 0%nat)
    then update_task task_id p (advance (validation_reads (attr (tu_due_date p))) w)
    else (Raise RequestValidationError,
          advance (validation_reads (attr (tu_due_date p))) w).
Proof.
  destruct w as [db c u].
  unfold put_task, TaskUpdate_validate, due_date_validation,
    patch_valid, validation_reads, advance.
  cbn [clock tasks_db uuids].
  destruct (attr (tu_due_date p)) as [due|]; unfold bind, now, ret, raise;
    cbn [clock tasks_db uuids Nat.add].
  - replace (negb (due <=? c 0%nat)) with (c 0%nat <? due)
      by (rewrite Z.leb_antisym, negb_involutive; reflexivity).
    destruct (_ && _ && _ && _ && _); reflexivity.
  - destruct (_ && _ && _ && _ && _); reflexivity.
Qed.

Lemma Qle_bool_false_lt (a b : Q) : (b < a)%Q -> Qle_bool a b = false.
Proof.
  intros H. destruct (Qle_bool a b) eqn:E; [|reflexivity].
  apply Qle_bool_iff in E. elim (Qlt_not_le _ _ H). exact E.
Qed.

Lemma estimated_hours_out_of_range (x : float) :
  (x < 1 # 10)%Q \/ (100 < x)%Q -> estimated_hours_ok (Some x) = false.
Proof.
  intros [H | H]; cbn [estimated_hours_ok]; rewrite (Qle_bool_false_lt _ _ H);
    [reflexivity | apply andb_false_r].
Qed.

Lemma actual_hours_out_of_range (x : float) :
  (x < 0)%Q \/ (200 < x)%Q -> actual_hours_ok (Some x) = false.
Proof.
  intros [H | H]; cbn [actual_hours_ok]; rewrite (Qle_bool_false_lt _ _ H);
    [reflexivity | apply andb_false_r].
Qed.

Lemma title_too_long (s : string) :
  (100 < String.length s)%nat -> title_ok s = false.
Proof.
  intros H. unfold title_ok. apply andb_false_iff. right.
  apply Nat.leb_gt. exact H.
Qed.

(** X9: a create request with an empty title, with an ASCII title of more
    than 100 characters, with an ASCII description of more than 500, or
    with an estimate below 0.1 or above 100 is rejected as invalid before
    anything is stored or an identifier is drawn.  So is an update request
    whose patch supplies such a title, description or estimate, or hours
    below 0 or above 200; this holds for an unknown identifier too, which
    is then reported as an invalid request and not as not found. *)
Theorem out_of_bounds_request_is_rejected_before_the_handler :
  (forall body w,
     tc_title body = EmptyString
     \/ (is_ascii_string (tc_title body) = true
         /\ (100 < String.length (tc_title body))%nat)
     \/ (exists s, tc_description body = Some s /\ is_ascii_string s = true
                   /\ (500 < String.length s)%nat)
     \/ (exists x, tc_estimated_hours body = Some x
                   /\ ((x < 1 # 10)%Q \/ (100 < x)%Q)) ->
     fst (post_tasks body w) = Raise RequestValidationError
     /\ tasks_db (snd (post_tasks body w)) = tasks_db w
     /\ uuids (snd (post_tasks body w)) = uuids w)
  /\ (forall task_id p w,
        attr (tu_title p) = Some EmptyString
        \/ (exists s, attr (tu_title p) = Some s /\ is_ascii_string s = true
                      /\ (100 < String.length s)%nat)
        \/ (exists s, attr (tu_description p) = Some s /\ is_ascii_string s = true
                      /\ (500 < String.length s)%nat)
        \/ (exists x, attr (tu_estimated_hours p) = Some x
                      /\ ((x < 1 # 10)%Q \/ (100 < x)%Q))
        \/ (exists x, attr (tu_actual_hours p) = Some x
                      /\ ((x < 0)%Q \/ (200 < x)%Q)) ->
        fst (put_task task_id p w) = Raise RequestValidationError
        /\ tasks_db (snd (put_task task_id p w)) = tasks_db w).
Proof.
  split.
  - intros body w H.
    assert (E : create_body_valid body (clock w 0%nat) = false).
    { unfold create_body_valid.
      destruct H as [H | [[_ H] | [(s & Hs & _ & H) | (x & Hx & H)]]].
      - rewrite H. reflexivity.
      - rewrite (title_too_long _ H). reflexivity.
      - rewrite Hs. cbn [description_ok].
        replace (String.length s <=? 500)%nat with false
          by (symmetry; apply Nat.leb_gt; exact H).
        rewrite andb_false_r. reflexivity.
      - rewrite Hx, (estimated_hours_out_of_range x H), andb_false_r.
        reflexivity. }
    rewrite post_tasks_run, E. repeat split.
  - intros task_id p w H.
    assert (E : patch_valid p (clock w 0%nat) = false).
    { unfold patch_valid, patch_title_ok.
      destruct H as [H | [(s & Hs & _ & H) | [(s & Hs & _ & H)
                    | [(x & Hx & H) | (x & Hx & H)]]]].
      - rewrite H. reflexivity.
      - rewrite Hs, (title_too_long _ H). reflexivity.
      - rewrite Hs. cbn [description_ok].
        replace (String.length s <=? 500)%nat with false
          by (symmetry; apply Nat.leb_gt; exact H).
        rewrite andb_false_r. reflexivity.
      - rewrite Hx, (estimated_hours_out_of_range x H), andb_false_r.
        reflexivity.
      - rewrite Hx, (actual_hours_out_of_range x H), andb_false_r.
        reflexivity. }
    rewrite put_task_run, E. repeat split.
Qed.

Lemma out_of_bounds_request_is_rejected_witness :
  fst (post_tasks (mkTaskCreate "" None LOW None None) (sample_world sample_store))
  = Raise RequestValidationError
  /\ fst (put_task "z" patch_complete_out_of_range (sample_world sample_store))
     = Raise RequestValidationError.
Proof.
  destruct out_of_bounds_request_is_rejected_before_the_handler as [H1 H2].
  split.
  - apply (H1 (mkTaskCreate "" None LOW None None) (sample_world sample_store)).
    left. reflexivity.
  - apply (H2 "z" patch_complete_out_of_range (sample_world sample_store)).
    right. right. right. right. exists 201%Q. split; [reflexivity|].
    right. reflexivity.
Defined.

(** ** Creating a task *)

Lemma created_record_fields (task : TaskCreate) (task_id : string)
  (c : nat -> datetime) :
  let r := created_record task task_id c in
  title r = Some (tc_title task) /\ description r = tc_description task
  /\ priority r = Some (tc_priority task)
  /\ estimated_hours r = tc_estimated_hours task
  /\ id r = task_id /\ status r = Some PENDING /\ created_at r = c 0%nat
  /\ actual_hours r = None
  /\ (forall due, tc_due_date task = Some due -> due_date r = Some due)
  /\ (exists n, (2 <= n <= 4)%nat /\ updated_at r = c n).
Proof.
  cbn zeta. unfold created_record.
  set (d0 := new_task_data task task_id (c 0%nat) (c 1%nat)).
  destruct (rules_result_frame d0 (fun k => c (2 + k)%nat))
    as (Ft & Fd & Fp & Fe & Fi & Fs & Fc).
  rewrite Ft, Fd, Fp, Fe, Fi, Fs, Fc, rules_result_actual_hours,
    rules_result_due_date.
  repeat split.
  - intros due Hdue. unfold lacks_urgent_due_date, d0, new_task_data.
    cbn [priority due_date]. rewrite Hdue. cbn [truthy_datetime negb].
    rewrite andb_false_r. reflexivity.
  - unfold rules_result. cbn [updated_at set_updated_at].
    exists (2 + (flag_reading d0 + reads (derived_fields d0 (fun k => c (2 + k)%nat))))%nat.
    split; [|reflexivity].
    unfold flag_reading.
    destruct (reads_cases (derived_fields d0 (fun k => c (2 + k)%nat))) as [E | E];
      rewrite E; destruct (lacks_urgent_due_date d0); cbn; lia.
Qed.

(** X10: a valid create request returns a task with the fields of the
    body, the identifier drawn from the generator, status pending, no
    hours and the supplied due date; reading that identifier right after
    returns the same task, all fields equal but for a recomputed flag. *)
Theorem create_then_get_round_trip
  (body : TaskCreate) (w : World)
  (Hvalid : create_body_valid body (clock w 0%nat) = true) :
  exists t,
    fst (post_tasks body w) = Ok t
    /\ t_title t = tc_title body
    /\ t_description t = tc_description body
    /\ t_priority t = tc_priority body
    /\ t_estimated_hours t = tc_estimated_hours body
    /\ t_id t = uuids w 0%nat
    /\ t_status t = PENDING
    /\ t_actual_hours t = None
    /\ (forall due, tc_due_date body = Some due -> t_due_date t = Some due)
    /\ exists b,
         fst (read_task (t_id t) (snd (post_tasks body w)))
         = Ok (with_is_overdue b t).
Proof.
  rewrite post_tasks_run, Hvalid.
  set (w0 := advance (validation_reads (tc_due_date body)) w).
  destruct (create_task_run body w0) as (w' & Hrun & Hdb). rewrite Hrun.
  cbn [fst snd].
  replace (uuids w0 0%nat) with (uuids w 0%nat) in * by reflexivity.
  set (r := created_record body (uuids w 0%nat) (clock w0)) in *.
  pose proof (created_record_fields body (uuids w 0%nat) (clock w0)) as F.
  cbn zeta in F. fold r in F.
  destruct F as (Ft & Fd & Fp & Fe & Fi & Fs & _ & Fa & Fdue & _).
  unfold create_body_valid in Hvalid.
  apply andb_true_iff in Hvalid. destruct Hvalid as [Hvalid _].
  apply andb_true_iff in Hvalid. destruct Hvalid as [Hvalid He].
  apply andb_true_iff in Hvalid. destruct Hvalid as [Ht Hd].
  assert (Hinit : Task_init r
                  = Ok (mkTask (tc_title body) (description r) (tc_priority body)
                          (estimated_hours r) (due_date r) (id r) PENDING
                          (created_at r) (updated_at r) (actual_hours r)
                          (is_overdue r))).
  { apply Task_init_ok; try assumption.
    - rewrite Fd. exact Hd.
    - rewrite Fe. exact He. }
  eexists. split; [exact Hinit|]. cbn [t_title t_description t_priority
    t_estimated_hours t_id t_status t_actual_hours t_due_date].
  repeat (split; [first [reflexivity | assumption]|]).
  assert (Hget : dict_get (id r) (tasks_db w') = Some r).
  { rewrite Hdb, Fi. apply dict_get_set_same. }
  rewrite (read_task_run (id r) w' r Hget). cbn [fst].
  eexists. apply (Task_init_set_is_overdue _ r _ Hinit).
Qed.

Lemma create_then_get_round_trip_witness :
  exists t,
    fst (post_tasks (sample_create HIGH (Some 2000)) (sample_world sample_store)) = Ok t
    /\ t_title t = "report"
    /\ t_id t = "a"
    /\ t_status t = PENDING
    /\ t_actual_hours t = None.
Proof.
  destruct (create_then_get_round_trip (sample_create HIGH (Some 2000))
              (sample_world sample_store) eq_refl)
    as (t & H1 & H2 & _ & _ & _ & H6 & H7 & H8 & _).
  exists t. repeat split; assumption.
Defined.

(** X11: [create_task] adds its record at the end of the store when the
    generated identifier is new, so that the store grows by one; when the
    generator repeats an identifier of the store, the record stored under
    it is replaced and the keys stay as they were.  In both cases every
    record under another identifier is untouched. *)
Theorem create_task_appends_or_replaces (task : TaskCreate) (w : World) :
  (dict_get (uuids w 0%nat) (tasks_db w) = None ->
     tasks_db (snd (create_task task w))
     = (tasks_db w
        ++ [(uuids w 0%nat, created_record task (uuids w 0%nat) (clock w))])%list)
  /\ (forall old, dict_get (uuids w 0%nat) (tasks_db w) = Some old ->
        keys (tasks_db (snd (create_task task w))) = keys (tasks_db w)
        /\ dict_get (uuids w 0%nat) (tasks_db (snd (create_task task w)))
           = Some (created_record task (uuids w 0%nat) (clock w)))
  /\ (forall k, k <> uuids w 0%nat ->
        dict_get k (tasks_db (snd (create_task task w))) = dict_get k (tasks_db w)).
Proof.
  destruct (create_task_run task w) as (w' & Hrun & Hdb).
  rewrite Hrun. cbn [snd]. rewrite Hdb. repeat split.
  - intros H. apply dict_set_absent, H.
  - apply (dict_set_present _ _ old). assumption.
  - apply dict_get_set_same.
  - intros k Hk. apply dict_get_set_other, Hk.
Qed.

Lemma create_task_appends_or_replaces_witness :
  keys (tasks_db (snd (create_task (sample_create LOW None) (sample_world sample_store))))
  = ["a"; "b"; "c"]
  /\ List.length
       (tasks_db (snd (create_task (sample_create LOW None) (sample_world []))))
     = 1%nat.
Proof.
  destruct (create_task_appends_or_replaces (sample_create LOW None)
              (sample_world sample_store)) as (_ & H & _).
  destruct (create_task_appends_or_replaces (sample_create LOW None)
              (sample_world [])) as (H0 & _ & _).
  split.
  - apply (H (sample_task "a" LOW PENDING (Some 10) 5) eq_refl).
  - rewrite (H0 eq_refl). reflexivity.
Defined.

(** X12: when the clock does not run backwards during the call, a task
    created by [create_task] has its creation time not after its update
    time: the first is the first reading of the clock, the second a later
    one. *)
Theorem created_at_not_after_updated_at (task : TaskCreate) (w : World) (t : Task)
  (Hclock : forall n, (n < 4)%nat -> clock w n <= clock w (S n))
  (Hok : fst (create_task task w) = Ok t) :
  t_created_at t = clock w 0%nat /\ t_created_at t <= t_updated_at t.
Proof.
  destruct (create_task_run task w) as (w' & Hrun & _).
  rewrite Hrun in Hok. cbn [fst] in Hok.
  destruct (Task_init_fields _ _ Hok) as (_ & _ & _ & _ & _ & _ & _ & Fc & Fu & _).
  pose proof (created_record_fields task (uuids w 0%nat) (clock w)) as F.
  cbn zeta in F. destruct F as (_ & _ & _ & _ & _ & _ & Gc & _ & _ & n & Hn & Gu).
  rewrite <- Fc, <- Fu, Gc, Gu. split; [reflexivity|].
  pose proof (Hclock 0%nat ltac:(lia)). pose proof (Hclock 1%nat ltac:(lia)).
  pose proof (Hclock 2%nat ltac:(lia)). pose proof (Hclock 3%nat ltac:(lia)).
  destruct n as [|[|[|[|[|n]]]]]; try lia.
Qed.

Lemma created_at_not_after_updated_at_witness :
  t_created_at (mkTask "report" None LOW None None "a" PENDING 1000 1002 None false)
  = clock (sample_world []) 0%nat
  /\ t_created_at (mkTask "report" None LOW None None "a" PENDING 1000 1002 None false)
     <= t_updated_at
          (mkTask "report" None LOW None None "a" PENDING 1000 1002 None false).
Proof.
  apply (created_at_not_after_updated_at (sample_create LOW None) (sample_world [])
           (mkTask "report" None LOW None None "a" PENDING 1000 1002 None false)).
  - intros n Hn. unfold sample_world, sample_clock. cbn [clock]. lia.
  - reflexivity.
Defined.

(** ** Listings on any store *)

Lemma Task_init_raises (d : TaskData) (e : Exn) :
  Task_init d = Raise e -> e = ModelValidationError.
Proof.
  unfold Task_init.
  destruct (title d), (priority d), (status d);
    try (intros H; injection H as <-; reflexivity).
  destruct (_ && _ && _); [discriminate|].
  intros H. injection H as <-. reflexivity.
Qed.

Lemma TaskStatus_eqb_eq (a b : TaskStatus) : TaskStatus_eqb a b = true -> a = b.
Proof. destruct a, b; cbn; intros H; try discriminate; reflexivity. Qed.

Lemma TaskPriority_eqb_eq (a b : TaskPriority) : TaskPriority_eqb a b = true -> a = b.
Proof. destruct a, b; cbn; intros H; try discriminate; reflexivity. Qed.

Lemma passes_obeys st pr ov (d : TaskData) (t : Task) :
  passes st pr ov d = true -> Task_init d = Ok t -> obeys_filters st pr ov t.
Proof.
  unfold passes. intros H Hinit.
  apply andb_true_iff in H. destruct H as [H Ho].
  apply andb_true_iff in H. destruct H as [Hs Hp].
  destruct (Task_init_fields d t Hinit)
    as (_ & _ & Fp & _ & _ & _ & Fs & _ & _ & _ & Fo).
  rewrite Fs in Hs. rewrite Fp in Hp. rewrite Fo in Ho.
  repeat split.
  - intros s ->. cbn in Hs. apply TaskStatus_eqb_eq, Hs.
  - intros p ->. cbn in Hp. apply TaskPriority_eqb_eq, Hp.
  - intros ->. exact Ho.
Qed.

Lemma read_all_loop_any st pr ov :
  forall (todo seen : list (string * TaskData)) (acc : list Task) (w : World),
    tasks_db w = (seen ++ todo)%list ->
    map without_flag (tasks_db (snd (read_all_loop st pr ov seen todo acc w)))
    = map without_flag (tasks_db w)
    /\ uuids (snd (read_all_loop st pr ov seen todo acc w)) = uuids w
    /\ match fst (read_all_loop st pr ov seen todo acc w) with
       | Ok ts => exists new, ts = (acc ++ new)%list
                              /\ Forall (obeys_filters st pr ov) new
       | Raise e => e = ModelValidationError
       end.
Proof.
  induction todo as [|[k d] rest IH]; intros seen acc w Hdb.
  - cbn. repeat split. exists []. rewrite app_nil_r. split; [reflexivity | constructor].
  - rewrite read_all_loop_step. cbn zeta.
    set (d' := set_is_overdue (overdue_atb d (clock w 0%nat)) d).
    set (w1 := mkWorld (seen ++ (k, d') :: rest)%list
                 (fun j => clock w (reads d + j)%nat) (uuids w)).
    assert (Hdb1 : tasks_db w1 = ((seen ++ [(k, d')]) ++ rest)%list).
    { cbn. rewrite <- app_assoc. reflexivity. }
    assert (Hsame : map without_flag (tasks_db w1) = map without_flag (tasks_db w)).
    { rewrite Hdb. cbn [w1 tasks_db]. rewrite !map_app. reflexivity. }
    destruct (passes st pr ov d') eqn:Epass.
    + destruct (Task_init d') as [t|e] eqn:Einit.
      * destruct (IH (seen ++ [(k, d')])%list (acc ++ [t])%list w1 Hdb1)
          as (H1 & H2 & H3).
        split; [rewrite H1; exact Hsame|]. split; [rewrite H2; reflexivity|].
        destruct (fst (read_all_loop st pr ov (seen ++ [(k, d')]) rest
                         (acc ++ [t]) w1)) as [ts|e]; [|exact H3].
        destruct H3 as (new & -> & Hnew). exists (t :: new). split.
        -- rewrite <- app_assoc. reflexivity.
        -- constructor; [|exact Hnew]. apply (passes_obeys st pr ov d' t Epass Einit).
      * cbn [fst snd]. split; [exact Hsame|]. split; [reflexivity|].
        apply (Task_init_raises d' e Einit).
    + destruct (IH (seen ++ [(k, d')])%list acc w1 Hdb1) as (H1 & H2 & H3).
      split; [rewrite H1; exact Hsame|]. split; [rewrite H2; reflexivity|].
      exact H3.
Qed.

Lemma read_all_tasks_any st pr ov (limit : Z) (w : World) :
  map without_flag (tasks_db (snd (read_all_tasks st pr ov limit w)))
  = map without_flag (tasks_db w)
  /\ uuids (snd (read_all_tasks st pr ov limit w)) = uuids w
  /\ match fst (read_all_tasks st pr ov limit w) with
     | Ok ts => Forall (obeys_filters st pr ov) ts
     | Raise e => e = ModelValidationError
     end.
Proof.
  destruct (read_all_loop_any st pr ov (tasks_db w) [] [] w eq_refl) as (H1 & H2 & H3).
  unfold read_all_tasks, bind at 1, get_db. unfold bind, ret.
  destruct (read_all_loop st pr ov [] (tasks_db w) [] w) as [[ts|e] w'];
    cbn [fst snd] in *; repeat split; try assumption.
  destruct H3 as (new & -> & Hnew). cbn [app].
  apply Forall_forall. intros t Ht. apply slice_to_In in Ht.
  apply (Permutation_in t (Permutation_sym (sort_reverse_perm new))) in Ht.
  revert t Ht. apply Forall_forall. exact Hnew.
Qed.

(** X13: a listing, whether it returns or raises, changes nothing in the
    store but the flags: keys, order and every other field of every record
    are as before; and the only error a listing itself can raise is the one
    of a record that the response model rejects. *)
Theorem listing_changes_flags_only
  (status_ : option TaskStatus) (priority_ : option TaskPriority)
  (overdue_only : bool) (limit : Z) (w : World) :
  map without_flag (tasks_db (snd (read_all_tasks status_ priority_ overdue_only limit w)))
  = map without_flag (tasks_db w)
  /\ keys (tasks_db (snd (read_all_tasks status_ priority_ overdue_only limit w)))
     = keys (tasks_db w)
  /\ forall e, fst (read_all_tasks status_ priority_ overdue_only limit w) = Raise e ->
               e = ModelValidationError.
Proof.
  destruct (read_all_tasks_any status_ priority_ overdue_only limit w)
    as (H1 & _ & H3).
  split; [exact H1|]. split.
  - unfold keys.
    replace (map fst (tasks_db w)) with (map fst (map without_flag (tasks_db w)))
      by (rewrite map_map; reflexivity).
    rewrite <- H1, map_map. reflexivity.
  - intros e He. rewrite He in H3. exact H3.
Qed.

(** X14: every task of a listing answers the filters of the request: it
    has the requested status, the requested priority, and is flagged
    overdue when only overdue tasks were asked for. *)
Theorem listed_tasks_obey_filters
  (status_ : option TaskStatus) (priority_ : option TaskPriority)
  (overdue_only : bool) (limit : Z) (w : World) (ts : list Task)
  (Hok : fst (read_all_tasks status_ priority_ overdue_only limit w) = Ok ts) :
  Forall (obeys_filters status_ priority_ overdue_only) ts.
Proof.
  destruct (read_all_tasks_any status_ priority_ overdue_only limit w)
    as (_ & _ & H3).
  rewrite Hok in H3. exact H3.
Qed.

Lemma listed_tasks_obey_filters_witness :
  Forall (obeys_filters (Some PENDING) None true)
    [mkTask "report" None LOW None (Some 10) "a" PENDING 5 5 None true].
Proof.
  apply (listed_tasks_obey_filters (Some PENDING) None true 100
           (sample_world sample_store)).
  vm_compute. reflexivity.
Defined.

Lemma Forall2_same_length {A B} (R : A -> B -> Prop) (l : list A) (l' : list B) :
  Forall2 R l l' -> List.length l = List.length l'.
Proof. induction 1; cbn; congruence. Qed.

(** X15: on a store whose records conform to the task model, a listing
    with a limit that is not negative returns as many tasks as pass the
    filters, but never more than the limit. *)
Theorem listing_length_is_bounded_by_limit
  (status_ : option TaskStatus) (priority_ : option TaskPriority)
  (overdue_only : bool) (limit : Z) (w : World)
  (Hlimit : 0 <= limit)
  (Hstore : Forall (fun e => conforms (snd e)) (tasks_db w)) :
  exists ts,
    fst (read_all_tasks status_ priority_ overdue_only limit w) = Ok ts
    /\ List.length ts
       = Nat.min (Z.to_nat limit)
           (List.length
              (filter (passes status_ priority_ overdue_only)
                 (map snd (refresh (tasks_db w) (clock w) 0)))).
Proof.
  destruct (read_all_tasks_run status_ priority_ overdue_only limit w Hstore)
    as (sel & w' & H1 & H2 & _).
  rewrite H1. eexists. split; [reflexivity|].
  rewrite (slice_to_firstn _ limit Hlimit), length_firstn.
  rewrite <- (Permutation_length (sort_reverse_perm sel)).
  rewrite (Forall2_same_length _ _ _ H2). reflexivity.
Qed.

Lemma listing_length_is_bounded_by_limit_witness :
  exists ts,
    fst (read_all_tasks None None false 2 (sample_world sample_store)) = Ok ts
    /\ List.length ts = 2%nat.
Proof.
  destruct (listing_length_is_bounded_by_limit None None false 2
              (sample_world sample_store)) as (ts & H1 & H2).
  - lia.
  - repeat (constructor; [eexists; reflexivity|]). constructor.
  - exists ts. split; [exact H1 | rewrite H2; reflexivity].
Defined.

(** X16: a list request whose limit is below 1 or above 1000 is rejected
    as invalid before the handler runs, so that no stored flag is
    rewritten and the clock is not read. *)
Theorem limit_out_of_range_is_rejected
  (status_ : option TaskStatus) (priority_ : option TaskPriority)
  (overdue_only : bool) (limit : Z) (w : World)
  (Hlimit : limit < 1 \/ 1000 < limit) :
  get_tasks status_ priority_ overdue_only (Some limit) w
  = (Raise RequestValidationError, w).
Proof.
  unfold get_tasks.
  replace ((1 <=? limit) && (limit <=? 1000)) with false; [reflexivity|].
  symmetry. apply andb_false_iff.
  destruct Hlimit as [H | H]; [left; apply Z.leb_gt | right; apply Z.leb_gt]; exact H.
Qed.

Lemma limit_out_of_range_is_rejected_witness :
  get_tasks None None false (Some 0) (sample_world sample_store)
  = (Raise RequestValidationError, sample_world sample_store)
  /\ get_tasks None None false (Some 1001) (sample_world sample_store)
     = (Raise RequestValidationError, sample_world sample_store).
Proof.
  split.
  - apply (limit_out_of_range_is_rejected None None false 0). left. lia.
  - apply (limit_out_of_range_is_rejected None None false 1001). right. lia.
Defined.

(** ** Invariants of the store *)

Lemma read_task_store (task_id : string) (w : World) :
  tasks_db (snd (read_task task_id w)) = tasks_db w.
Proof.
  destruct (dict_get task_id (tasks_db w)) as [d|] eqn:E.
  - rewrite (read_task_run task_id w d E). reflexivity.
  - unfold read_task, bind, get_db. rewrite E. reflexivity.
Qed.

Lemma delete_task_store (task_id : string) (w : World) :
  tasks_db (snd (delete_task task_id w)) = tasks_db w
  \/ tasks_db (snd (delete_task task_id w)) = dict_del task_id (tasks_db w).
Proof.
  destruct (dict_get task_id (tasks_db w)) as [d|] eqn:E.
  - rewrite (delete_task_run task_id w d E).
    destruct (status_is (status d) IN_PROGRESS); [left | right]; reflexivity.
  - left. unfold delete_task, bind, get_db. rewrite E. reflexivity.
Qed.

Lemma delete_all_tasks_store (force : bool) (w : World) :
  tasks_db (snd (delete_all_tasks force w)) = tasks_db w
  \/ tasks_db (snd (delete_all_tasks force w)) = [].
Proof.
  unfold delete_all_tasks, bind, get_db.
  destruct (negb force && _); [left | right]; reflexivity.
Qed.

Lemma update_task_store (task_id : string) (p : TaskUpdate) (w : World) :
  tasks_db (snd (update_task task_id p w)) = tasks_db w
  \/ exists stored,
       dict_get task_id (tasks_db w) = Some stored
       /\ transition_refused stored p = false
       /\ tasks_db (snd (update_task task_id p w))
          = dict_set task_id (updated_record stored p (clock w)) (tasks_db w).
Proof.
  destruct (dict_get task_id (tasks_db w)) as [stored|] eqn:Hget.
  - destruct (transition_refused stored p) eqn:Hguard.
    + left. rewrite (update_task_refused task_id p w stored Hget Hguard). reflexivity.
    + right. exists stored. split; [reflexivity|]. split; [exact Hguard|].
      destruct (update_task_run task_id p w stored Hget Hguard) as (w' & Hrun & Hdb).
      rewrite Hrun. exact Hdb.
  - left. rewrite (missing_id_is_not_found_aux task_id p w Hget). reflexivity.
Qed.

Lemma store_ok_flags (db db' : list (string * TaskData)) :
  map without_flag db' = map without_flag db -> store_ok db -> store_ok db'.
Proof.
  intros H [Hnd Hid]. split.
  - unfold keys in *.
    replace (map fst db') with (map fst (map without_flag db'))
      by (rewrite map_map; reflexivity).
    rewrite H, map_map. exact Hnd.
  - assert (G : Forall (fun e => id (snd e) = fst e) (map without_flag db')).
    { rewrite H. apply Forall_map. exact Hid. }
    apply Forall_map in G. exact G.
Qed.

(** X17: the store stays a well-formed dictionary under every handler:
    no key occurs twice and every record is stored under its own [id],
    after a create, an update, a read, a listing, a delete and a bulk
    delete alike, whether the call returns or raises. *)
Theorem handlers_keep_ids_and_keys_consistent (w : World)
  (Hstore : store_ok (tasks_db w)) :
  (forall task, store_ok (tasks_db (snd (create_task task w))))
  /\ (forall task_id p, store_ok (tasks_db (snd (update_task task_id p w))))
  /\ (forall task_id, store_ok (tasks_db (snd (read_task task_id w))))
  /\ (forall st pr ov limit, store_ok (tasks_db (snd (read_all_tasks st pr ov limit w))))
  /\ (forall task_id, store_ok (tasks_db (snd (delete_task task_id w))))
  /\ (forall force, store_ok (tasks_db (snd (delete_all_tasks force w)))).
Proof.
  destruct Hstore as [Hnd Hid]. repeat split.
  - destruct (create_task_run task w) as (w' & Hrun & Hdb).
    rewrite Hrun. cbn [snd]. rewrite Hdb. apply dict_set_NoDup, Hnd.
  - destruct (create_task_run task w) as (w' & Hrun & Hdb).
    rewrite Hrun. cbn [snd]. rewrite Hdb. apply dict_set_Forall; [exact Hid|].
    cbn [fst snd]. apply created_record_fields.
  - destruct (update_task_store task_id p w) as [-> | (stored & _ & _ & ->)];
      [exact Hnd | apply dict_set_NoDup, Hnd].
  - destruct (update_task_store task_id p w) as [-> | (stored & Hget & _ & ->)];
      [exact Hid|].
    apply dict_set_Forall; [exact Hid|]. cbn [fst snd].
    destruct (updated_record_id stored p (clock w)) as [-> _].
    apply dict_get_In in Hget.
    apply (proj1 (Forall_forall _ _) Hid) in Hget. exact Hget.
  - rewrite read_task_store. exact Hnd.
  - rewrite read_task_store. exact Hid.
  - apply (store_ok_flags (tasks_db w));
      [apply read_all_tasks_any | split; assumption].
  - apply (store_ok_flags (tasks_db w));
      [apply read_all_tasks_any | split; assumption].
  - destruct (delete_task_store task_id w) as [-> | ->];
      [exact Hnd | apply dict_del_NoDup, Hnd].
  - destruct (delete_task_store task_id w) as [-> | ->];
      [exact Hid | apply dict_del_Forall, Hid].
  - destruct (delete_all_tasks_store force w) as [-> | ->];
      [exact Hnd | constructor].
  - destruct (delete_all_tasks_store force w) as [-> | ->];
      [exact Hid | constructor].
Qed.

Lemma handlers_keep_ids_and_keys_consistent_witness :
  store_ok (tasks_db (snd (create_task (sample_create LOW None)
                             (sample_world sample_store))))
  /\ store_ok (tasks_db (snd (delete_task "a" (sample_world sample_store)))).
Proof.
  assert (H : store_ok (tasks_db (sample_world sample_store))).
  { split.
    - repeat constructor; cbn; intuition discriminate.
    - repeat constructor. }
  destruct (handlers_keep_ids_and_keys_consistent (sample_world sample_store) H)
    as (H1 & _ & _ & _ & H5 & _).
  split; [apply H1 | apply H5].
Defined.

Lemma conforms_without_flag (d : TaskData) (b : bool) :
  conforms (set_is_overdue b d) -> conforms d.
Proof.
  intros [t H]. unfold conforms, Task_init in *. cbn in H.
  destruct (title d), (priority d), (status d); try discriminate.
  destruct (_ && _ && _); [|discriminate]. eexists. reflexivity.
Qed.

Lemma conforming_flags (db db' : list (string * TaskData)) :
  map without_flag db' = map without_flag db ->
  Forall (fun e => conforms (snd e)) db -> Forall (fun e => conforms (snd e)) db'.
Proof.
  intros H Hc.
  assert (G : Forall (fun e => conforms (snd e)) (map without_flag db')).
  { rewrite H. apply Forall_map. eapply Forall_impl; [|exact Hc].
    intros [k d] [t Ht]. cbn [snd without_flag] in *.
    eexists. apply (Task_init_set_is_overdue false d t Ht). }
  apply (proj1 (Forall_map without_flag (fun e => conforms (snd e)) db')) in G.
  eapply Forall_impl; [|exact G].
  intros [k d]. cbn [snd without_flag]. apply conforms_without_flag.
Qed.

(** X18: records that conform to the task model keep doing so: after any
    create request, after any update request whose patch sets none of
    title, priority and status to null, and after any read, listing,
    delete or bulk delete, every stored record still builds a response. *)
Theorem requests_keep_records_conforming (w : World)
  (Hstore : Forall (fun e => conforms (snd e)) (tasks_db w)) :
  (forall body, Forall (fun e => conforms (snd e)) (tasks_db (snd (post_tasks body w))))
  /\ (forall task_id p, keeps_required_fields p ->
        Forall (fun e => conforms (snd e)) (tasks_db (snd (put_task task_id p w))))
  /\ (forall task_id,
        Forall (fun e => conforms (snd e)) (tasks_db (snd (read_task task_id w))))
  /\ (forall st pr ov limit,
        Forall (fun e => conforms (snd e))
          (tasks_db (snd (get_tasks st pr ov limit w))))
  /\ (forall task_id,
        Forall (fun e => conforms (snd e)) (tasks_db (snd (delete_task task_id w))))
  /\ (forall force,
        Forall (fun e => conforms (snd e)) (tasks_db (snd (delete_all_tasks force w)))).
Proof.
  split; [|split; [|split; [|split; [|split]]]].
  - intros body. rewrite post_tasks_run.
    destruct (create_body_valid body (clock w 0%nat)) eqn:Hvalid; [|exact Hstore].
    set (w0 := advance (validation_reads (tc_due_date body)) w).
    destruct (create_task_run body w0) as (w' & Hrun & Hdb).
    rewrite Hrun. cbn [snd]. rewrite Hdb.
    apply dict_set_Forall; [exact Hstore|]. cbn [snd].
    unfold create_body_valid in Hvalid.
    apply andb_true_iff in Hvalid. destruct Hvalid as [Hvalid _].
    apply andb_true_iff in Hvalid. destruct Hvalid as [Hvalid He].
    apply andb_true_iff in Hvalid. destruct Hvalid as [Ht Hd].
    destruct (created_record_conforms body (uuids w0 0%nat) (clock w0) Ht Hd He)
      as (t & Hinit & _).
    exists t. exact Hinit.
  - intros task_id p Hreq. rewrite put_task_run.
    destruct (patch_valid p (clock w 0%nat)) eqn:Hvalid; [|exact Hstore].
    set (w0 := advance (validation_reads (attr (tu_due_date p))) w).
    destruct (update_task_store task_id p w0) as [-> | (stored & Hget & _ & ->)];
      [exact Hstore|].
    apply dict_set_Forall; [exact Hstore|]. cbn [snd].
    unfold patch_valid in Hvalid.
    apply andb_true_iff in Hvalid. destruct Hvalid as [Hvalid _].
    apply andb_true_iff in Hvalid. destruct Hvalid as [Hvalid _].
    apply andb_true_iff in Hvalid. destruct Hvalid as [Hvalid He].
    apply andb_true_iff in Hvalid. destruct Hvalid as [Ht Hd].
    apply updated_record_conforms; try assumption.
    apply dict_get_In in Hget.
    apply (proj1 (Forall_forall _ _) Hstore) in Hget. exact Hget.
  - intros task_id. rewrite read_task_store. exact Hstore.
  - intros st pr ov limit. unfold get_tasks.
    destruct ((1 <=? _) && (_ <=? 1000)); [|exact Hstore].
    apply (conforming_flags (tasks_db w)); [apply read_all_tasks_any | exact Hstore].
  - intros task_id. destruct (delete_task_store task_id w) as [-> | ->];
      [exact Hstore | apply dict_del_Forall, Hstore].
  - intros force. destruct (delete_all_tasks_store force w) as [-> | ->];
      [exact Hstore | constructor].
Qed.

Lemma requests_keep_records_conforming_witness :
  Forall (fun e => conforms (snd e))
    (tasks_db (snd (post_tasks (sample_create URGENT None) (sample_world sample_store))))
  /\ Forall (fun e => conforms (snd e))
       (tasks_db (snd (put_task "a" patch_nulls (sample_world sample_store)))).
Proof.
  assert (H : Forall (fun e => conforms (snd e)) (tasks_db (sample_world sample_store))).
  { repeat (constructor; [eexists; reflexivity|]). constructor. }
  destruct (requests_keep_records_conforming (sample_world sample_store) H)
    as (H1 & H2 & _).
  split; [apply H1 | apply H2]. repeat split; discriminate.
Defined.

(** ** After a bulk delete *)

(** X19: once a bulk delete has gone through (forced, or with no task in
    progress), every identifier is unknown to a read and every listing
    with a valid limit is empty. *)
Theorem after_bulk_delete_nothing_is_found (force : bool) (w : World)
  (Hgo : force = true \/ in_progress_count (tasks_db w) = 0%nat) :
  (forall task_id,
     fst (read_task task_id (snd (delete_all_tasks force w))) = Raise NotFoundError)
  /\ (forall st pr ov limit,
        1 <= effective_limit limit <= 1000 ->
        fst (get_tasks st pr ov limit (snd (delete_all_tasks force w))) = Ok []).
Proof.
  rewrite (delete_all_tasks_clears force w Hgo). cbn [snd]. split.
  - intros task_id. reflexivity.
  - intros st pr ov limit Hl. unfold get_tasks. fold (effective_limit limit).
    replace ((1 <=? effective_limit limit) && (effective_limit limit <=? 1000))
      with true
      by (symmetry; apply andb_true_iff; split; apply Z.leb_le; lia).
    unfold read_all_tasks, bind, get_db, ret. cbn.
    unfold slice_to. destruct (effective_limit limit <? 0); cbn;
      now rewrite firstn_nil.
Qed.

Lemma after_bulk_delete_nothing_is_found_witness :
  fst (read_task "a" (snd (delete_all_tasks true (sample_world sample_store))))
  = Raise NotFoundError
  /\ fst (get_tasks None None false None
            (snd (delete_all_tasks true (sample_world sample_store))))
     = Ok [].
Proof.
  destruct (after_bulk_delete_nothing_is_found true (sample_world sample_store)
              (or_introl eq_refl)) as [H1 H2].
  split; [apply H1 | apply H2]. cbn. lia.
Defined.

(** ** Ties in a listing *)

Lemma has_key_not_lt (k : bool * datetime) (a b : Task) :
  has_key k a = true -> has_key k b = true ->
  tuple_lt (sort_key a) (sort_key b) = false.
Proof.
  unfold has_key, tuple_lt. intros Ha Hb.
  apply andb_true_iff in Ha, Hb. destruct Ha as [Ha1 Ha2], Hb as [Hb1 Hb2].
  apply Bool.eqb_prop in Ha1, Hb1. apply Z.eqb_eq in Ha2, Hb2.
  rewrite Ha1, Hb1, Ha2, Hb2, Bool.eqb_reflx. apply Z.ltb_irrefl.
Qed.

Lemma insert_reverse_stable (k : bool * datetime) (x : Task) (l : list Task) :
  filter (has_key k) (insert_reverse tuple_lt sort_key x l)
  = filter (has_key k) (x :: l).
Proof.
  induction l as [|y l IH]; [reflexivity|].
  cbn [insert_reverse].
  destruct (tuple_lt (sort_key x) (sort_key y)) eqn:E; [|reflexivity].
  cbn [filter] in *. rewrite IH.
  destruct (has_key k x) eqn:Ex, (has_key k y) eqn:Ey; try reflexivity.
  rewrite (has_key_not_lt k x y Ex Ey) in E. discriminate.
Qed.

Lemma sort_reverse_stable (k : bool * datetime) (l : list Task) :
  filter (has_key k) (sort_reverse tuple_lt sort_key l) = filter (has_key k) l.
Proof.
  induction l as [|x l IH]; [reflexivity|].
  cbn [sort_reverse fold_right]. fold (sort_reverse tuple_lt sort_key l).
  rewrite insert_reverse_stable. cbn [filter]. rewrite IH. reflexivity.
Qed.

(** X20: ties of a listing keep the order of the store: among the tasks
    that pass the filters, those with the same urgency and the same
    creation time appear in the result, before it is cut to the limit, in
    the order in which the store holds them. *)
Theorem listing_keeps_store_order_among_ties
  (status_ : option TaskStatus) (priority_ : option TaskPriority)
  (overdue_only : bool) (limit : Z) (w : World)
  (Hstore : Forall (fun e => conforms (snd e)) (tasks_db w)) :
  exists selected sorted,
    Forall2 (fun t d => Task_init d = Ok t) selected
      (filter (passes status_ priority_ overdue_only)
         (map snd (refresh (tasks_db w) (clock w) 0)))
    /\ fst (read_all_tasks status_ priority_ overdue_only limit w)
       = Ok (slice_to sorted limit)
    /\ forall k, filter (has_key k) sorted = filter (has_key k) selected.
Proof.
  destruct (read_all_tasks_run status_ priority_ overdue_only limit w Hstore)
    as (sel & w' & H1 & H2 & _).
  exists sel, (sort_reverse tuple_lt sort_key sel).
  split; [exact H2|]. split; [rewrite H1; reflexivity|].
  intros k. apply sort_reverse_stable.
Qed.

Lemma listing_keeps_store_order_among_ties_witness :
  exists selected sorted,
    Forall2 (fun t d => Task_init d = Ok t) selected
      (filter (passes None None false)
         (map snd (refresh (tasks_db (sample_world sample_ties))
                     (clock (sample_world sample_ties)) 0)))
    /\ fst (read_all_tasks None None false 100 (sample_world sample_ties))
       = Ok (slice_to sorted 100)
    /\ forall k, filter (has_key k) sorted = filter (has_key k) selected.
Proof.
  apply (listing_keeps_store_order_among_ties None None false 100
           (sample_world sample_ties)).
  repeat (constructor; [eexists; reflexivity|]). constructor.
Defined.

(** Two tasks created at the same time are listed in store order, after
    the urgent one. *)
Example sample_ties_listing :
  option_map (map t_id)
    (match fst (read_all_tasks None None false 100 (sample_world sample_ties)) with
     | Ok ts => Some ts
     | Raise _ => None
     end)
  = Some ["u"; "x"; "y"].
Proof. vm_compute. reflexivity. Qed.

(** ** The derivation rules as a whole *)

(** X21: [apply_business_rules] never raises, leaves the store and the
    identifier generator alone, and never changes the title, description,
    priority, estimate, identifier, status or creation time of the record
    it is given; it reads the clock between one and three times. *)
Theorem business_rules_keep_identity_and_status (d : TaskData) (w : World) :
  exists r w' n,
    apply_business_rules d w = (Ok r, w')
    /\ tasks_db w' = tasks_db w /\ uuids w' = uuids w
    /\ (1 <= n <= 3)%nat /\ (forall j, clock w' j = clock w (n + j)%nat)
    /\ title r = title d /\ description r = description d
    /\ priority r = priority d /\ estimated_hours r = estimated_hours d
    /\ id r = id d /\ status r = status d /\ created_at r = created_at d.
Proof.
  rewrite apply_business_rules_run.
  exists (rules_result d (clock w)), 
    (advance (flag_reading d + reads (derived_fields d (clock w)) + 1) w),
    (flag_reading d + reads (derived_fields d (clock w)) + 1)%nat.
  split; [reflexivity|]. split; [reflexivity|]. split; [reflexivity|].
  split.
  - unfold flag_reading.
    destruct (reads_cases (derived_fields d (clock w))) as [E | E]; rewrite E;
      destruct (lacks_urgent_due_date d); cbn; lia.
  - split; [intros j; reflexivity|]. apply rules_result_frame.
Qed.
